(** * CubeImporterBlender: the Gaussian Cube reader and the sequence import

    A shallow embedding of [cube_blender/__init__.py] ([read_vdb_grids],
    [load_cube]) and of the older single-file add-on
    [import_cube_addon.py] ([load_cube], here [Addon.load_cube]).

    Conventions of the embedding.
    - Python [int] is [Z]; strings are [string] over ASCII.
    - A Python call has one of three outcomes: it returns, it raises an
      exception, or it never returns (the index loop of the orbital header
      spins at the end of the file).
    - The text file is the list of its lines, as [readline] hands them out
      (each with its newline, after the newline translation of text mode).
    - NumPy and Python floats, and the OpenVDB transform, are taken through
      the interface [Runtime]; [SpecRuntime] instantiates it with IEEE 754
      binary64/binary32 from [SpecFloat] to run concrete files. *)

From Stdlib Require Import ZArith List String Ascii Lia Sorted Permutation.
From Stdlib Require Import SpecFloat.
From stdpp Require Import base tactics option list numbers strings pretty.

Local Open Scope string_scope.
Local Open Scope list_scope.
Local Open Scope Z_scope.

(** ** Outcomes of Python calls *)

Inductive exn : Type :=
  | ValueError
  | IndexError
  | OSError
  | ArithmeticError
  | RuntimeError (msg : string).

Inductive outcome (A : Type) : Type :=
  | Ok (a : A)
  | Raise (e : exn)
  | Diverge.
Arguments Ok {A} a.
Arguments Raise {A} e.
Arguments Diverge {A}.

Definition bind {A B : Type} (m : outcome A) (k : A → outcome B) : outcome B :=
  match m with
  | Ok a => k a
  | Raise e => Raise e
  | Diverge => Diverge
  end.

Notation "'let*' x ':=' m 'in' k" := (bind m (fun x => k))
  (at level 10, x pattern, m at level 100, k at level 200).

Definition of_option {A : Type} (e : exn) (o : option A) : outcome A :=
  match o with Some a => Ok a | None => Raise e end.

(** [[g(x) for x in xs]]: the first failing element raises. *)
Fixpoint map_outcome {A B : Type} (g : A → outcome B) (xs : list A) : outcome (list B) :=
  match xs with
  | [] => Ok []
  | x :: r => let* y := g x in let* ys := map_outcome g r in Ok (y :: ys)
  end.

(** ** Python strings *)

Definition is_digit (c : ascii) : bool :=
  let n := nat_of_ascii c in (48 <=? n)%nat && (n <=? 57)%nat.

(** [str.isspace] on ASCII: tab, LF, VT, FF, CR, FS..US and space. *)
Definition is_space (c : ascii) : bool :=
  let n := nat_of_ascii c in
  ((9 <=? n)%nat && (n <=? 13)%nat) || ((28 <=? n)%nat && (n <=? 32)%nat).

Definition nl : ascii := ascii_of_nat 10.

(** [str.split()] with no argument: the maximal runs of non-space characters. *)
Fixpoint split_go (cur : string) (s : string) : list string :=
  match s with
  | EmptyString => if decide (cur = "") then [] else [cur]
  | String c r =>
      if is_space c
      then (if decide (cur = "") then split_go "" r else cur :: split_go "" r)
      else split_go (cur +:+ String c "") r
  end.
Definition split (s : string) : list string := split_go "" s.

(** The lines of a text, each with its terminating newline (the last one may
    lack it): what successive [readline] calls return. *)
Fixpoint lines_go (cur : string) (s : string) : list string :=
  match s with
  | EmptyString => if decide (cur = "") then [] else [cur]
  | String c r =>
      if decide (c = nl) then (cur +:+ String c "") :: lines_go "" r
      else lines_go (cur +:+ String c "") r
  end.
Definition lines_of (content : string) : list string := lines_go "" content.

Definition digit_value (c : ascii) : Z := Z.of_nat (nat_of_ascii c) - 48.

(** Decimal digits with single underscores between them, as [int] and
    [float] accept; [seen] tells whether the previous character was a digit. *)
Fixpoint digits_go (seen : bool) (acc : Z) (s : string) : option Z :=
  match s with
  | EmptyString => if seen then Some acc else None
  | String c r =>
      if is_digit c then digits_go true (acc * 10 + digit_value c) r
      else if decide (c = "_"%char) then (if seen then digits_go false acc r else None)
      else None
  end.

(** [int(s)] on a token: an optional sign and decimal digits.  [None] is
    [ValueError].  Integers are unbounded, as in Python. *)
Definition py_int (s : string) : option Z :=
  match s with
  | String "-" r => Z.opp <$> digits_go false 0 r
  | String "+" r => digits_go false 0 r
  | _ => digits_go false 0 s
  end.

(** [str(n)] for an [int]. *)
Definition py_str (n : Z) : string := pretty n.

(** [xs[:stop]] for a list and an [int] stop (negative: from the end). *)
Definition slice_to {A : Type} (xs : list A) (stop : Z) : list A :=
  if stop <? 0 then take (Z.to_nat (Z.of_nat (length xs) + stop)) xs
  else take (Z.to_nat stop) xs.

(** [xs[1:4]]. *)
Definition slice_1_4 {A : Type} (xs : list A) : list A := take 3 (drop 1 xs).

Fixpoint ends_with_char (c : ascii) (s : string) : bool :=
  match s with
  | EmptyString => false
  | String d EmptyString => bool_decide (d = c)
  | String _ r => ends_with_char c r
  end.

(** ** Text streams *)

(** An open text file: the lines not read yet. *)
Definition stream : Type := list string.

(** [f.readline()]: the next line, or the empty string at the end of the file. *)
Definition readline (f : stream) : string * stream :=
  match f with
  | [] => ("", [])
  | l :: r => (l, r)
  end.

(** [f.read()]: everything that is left. *)
Definition read (f : stream) : string := String.concat "" f.

(** ** NumPy arrays *)

(** A C-contiguous array: its shape and its elements in row-major order. *)
Record ndarray (A : Type) : Type := NdArray { shape : list Z; flat : list A }.
Arguments NdArray {A} shape flat.
Arguments shape {A} _.
Arguments flat {A} _.

Definition product (ds : list Z) : Z := foldr Z.mul 1 ds.

(** [data.reshape(newshape)] on a one-dimensional array.  As in NumPy, one
    negative entry of the shape is the dimension to infer; without one the
    sizes must agree.  Each failure is a [ValueError]. *)
Definition np_reshape {A : Type} (data : list A) (newshape : list Z) : outcome (ndarray A) :=
  let size := Z.of_nat (length data) in
  let s_known := product (List.filter (fun d => 0 <=? d) newshape) in
  match List.filter (fun d => d <? 0) newshape with
  | [] =>
      if size =? s_known then Ok (NdArray newshape data) else Raise ValueError
  | [_] =>
      if (s_known =? 0) || negb (size mod s_known =? 0) then Raise ValueError
      else Ok (NdArray (map (fun d => if d <? 0 then size / s_known else d) newshape) data)
  | _ => Raise ValueError
  end.

(** [data[:, :, :, m]] on a four-dimensional array. *)
Definition last_axis {A : Type} (data : ndarray A) (m : nat) : outcome (ndarray A) :=
  match shape data with
  | [d1; d2; d3; d4] =>
      if Z.of_nat m <? d4
      then Ok (NdArray [d1; d2; d3]
                 (omap (fun v => flat data !! (v * Z.to_nat d4 + m)%nat)
                       (seq 0 (Z.to_nat (d1 * d2 * d3)))))
      else Raise IndexError
  | _ => Raise IndexError
  end.

(** [a[i, j, k]] on a three-dimensional array, for indices in range. *)
Definition get3 {A : Type} (a : ndarray A) (i j k : nat) : option A :=
  match shape a with
  | [d1; d2; d3] =>
      if (Z.of_nat i <? d1) && (Z.of_nat j <? d2) && (Z.of_nat k <? d3)
      then flat a !! ((i * Z.to_nat d2 + j) * Z.to_nat d3 + k)%nat
      else None
  | _ => None
  end.

(** ** Headers, grids and writer calls

    The records take the value types as parameters; the readers use them at
    the types of the runtime. *)

(** What steps 1 to 5 of the reader collect. *)
Record header (F : Type) : Type := Header {
  is_multi_mo : bool;
  origin : list F;
  n1 : Z; v1 : list F;
  n2 : Z; v2 : list F;
  n3 : Z; v3 : list F;
  n_mo : Z;
  mo_indices : list Z
}.
Arguments Header {F}.
Arguments is_multi_mo {F}.
Arguments origin {F}.
Arguments n1 {F}.
Arguments v1 {F}.
Arguments n2 {F}.
Arguments v2 {F}.
Arguments n3 {F}.
Arguments v3 {F}.
Arguments n_mo {F}.
Arguments mo_indices {F}.

Inductive grid_class : Type := FOG_VOLUME.

(** An [openvdb.FloatGrid] as the reader sets it up. *)
Record grid (F32 T : Type) : Type := Grid {
  grid_name : string;
  grid_values : ndarray F32;
  grid_transform : T;
  gridClass : grid_class
}.
Arguments Grid {F32 T}.
Arguments grid_name {F32 T}.
Arguments grid_values {F32 T}.
Arguments grid_transform {F32 T}.
Arguments gridClass {F32 T}.

(** The calls of the container writer, [openvdb.write(name, grids=...)]. *)
Inductive event (F32 T : Type) : Type :=
  | VdbWrite (name : string) (grids : list (grid F32 T)).
Arguments VdbWrite {F32 T}.

(** ** The numeric runtime *)

(** What the code takes from Python's [float], NumPy and OpenVDB. *)
Class Runtime : Type := {
  (** [float] and [np.float64] values, and [np.float32] values *)
  float : Type;
  float32 : Type;
  (** [float(token)]; [None] is [ValueError] *)
  py_float : string → option float;
  (** [np.fromstring(content, sep=' ')] *)
  np_fromstring : string → list float;
  (** [0.0], [1.0] and the product of two floats *)
  fzero : float;
  fone : float;
  fmul : float → float → float;
  (** the element conversion of [astype(np.float32)] *)
  astype_float32 : float → float32;
  (** [openvdb.createLinearTransform(mat)], which may refuse a matrix *)
  transform : Type;
  createLinearTransform : list (list float) → outcome transform;
  (** a text without tokens holds no values *)
  np_fromstring_empty : np_fromstring "" = []
}.

Section Reader.
Context `{RT : Runtime}.

(** ** Header (lines 96-149 of [cube_blender/__init__.py]) *)


Definition int_token (x : string) : outcome Z := of_option ValueError (py_int x).
Definition float_token (x : string) : outcome float := of_option ValueError (py_float x).

(** [n = int(line[0]); v = np.array([float(x) for x in line[1:4]])] *)
Definition count_and_vector (line : list string) : outcome (Z * list float) :=
  let* tok := of_option IndexError (line !! 0%nat) in
  let* n := int_token tok in
  let* v := map_outcome float_token (slice_1_4 line) in
  Ok (n, v).

(** [while len(current_indices) < n_mo: ... extend(...)].  At the end of the
    file [readline] returns the empty string for ever and the list never
    grows: the loop does not terminate. *)
Fixpoint read_indices (n_mo : Z) (current_indices : list Z) (f : stream)
  : outcome (list Z * stream) :=
  if Z.of_nat (length current_indices) <? n_mo then
    match f with
    | [] => Diverge
    | l :: f' =>
        let* more := map_outcome int_token (split l) in
        read_indices n_mo (current_indices ++ more) f'
    end
  else Ok (current_indices, f).

(** Step 5, the orbital header of a file with a negative atom count. *)
Definition mo_header (f : stream) : outcome (Z * list Z * stream) :=
  let '(l, f) := readline f in
  let line := split l in
  let* tok := of_option IndexError (line !! 0%nat) in
  let n_mo := default 1 (py_int tok) in
  let* current_indices :=
    if (1 <? length line)%nat then map_outcome int_token (drop 1 line) else Ok [] in
  if 1 <? n_mo then
    let* (current_indices, f) := read_indices n_mo current_indices f in
    Ok (n_mo, slice_to current_indices n_mo, f)
  else if (n_mo =? 1) && negb (bool_decide (current_indices = [])) then
    Ok (n_mo, slice_to current_indices 1, f)
  else Ok (n_mo, [], f).

(** Steps 1 to 6: the header and the text of the payload.  [guard] is the
    test [if not line: raise ValueError] on the third line, which
    [cube_blender] has and the older add-on lacks. *)
Definition read_header (guard : bool) (f : stream) : outcome (header float * string) :=
  let '(header1, f) := readline f in
  let '(header2, f) := readline f in
  let '(l, f) := readline f in
  let line := split l in
  if guard && bool_decide (line = []) then Raise ValueError else
  let* (n_atoms, origin) := count_and_vector line in
  let is_multi_mo := n_atoms <? 0 in
  let n_atoms := if is_multi_mo then Z.abs n_atoms else n_atoms in
  let '(l, f) := readline f in
  let* (n1, v1) := count_and_vector (split l) in
  let '(l, f) := readline f in
  let* (n2, v2) := count_and_vector (split l) in
  let '(l, f) := readline f in
  let* (n3, v3) := count_and_vector (split l) in
  let f := drop (Z.to_nat n_atoms) f in
  let* (n_mo, mo_indices, f) :=
    if is_multi_mo then mo_header f else Ok (1, [], f) in
  Ok (Header is_multi_mo origin n1 v1 n2 v2 n3 v3 n_mo mo_indices, read f).

(** ** Payload (lines 151-164 and 178-181) *)

(** [np.pad(data, (0, k))] *)
Definition np_pad (data : list float) (k : Z) : list float :=
  data ++ replicate (Z.to_nat k) fzero.

(** The adjustment of the token array to the expected length. *)
Definition reconcile (data : list float) (expected_len : Z) : list float :=
  let size := Z.of_nat (length data) in
  if negb (size =? expected_len) then
    if expected_len <? size then slice_to data expected_len
    else np_pad data (expected_len - size)
  else data.

Definition reshape_payload (data : list float) (n1 n2 n3 n_mo : Z) : outcome (ndarray float) :=
  if 1 <? n_mo then np_reshape data [n1; n2; n3; n_mo]
  else np_reshape data [n1; n2; n3].

(** From the payload text to the reshaped array. *)
Definition decode_payload (content : string) (n1 n2 n3 n_mo : Z) : outcome (ndarray float) :=
  let data := np_fromstring content in
  let expected_len := n1 * n2 * n3 * n_mo in
  reshape_payload (reconcile data expected_len) n1 n2 n3 n_mo.

(** The array of field [m]: [data[:, :, :, m]] for several fields, else [data]. *)
Definition vol_data (data : ndarray float) (n_mo : Z) (m : nat) : outcome (ndarray float) :=
  if 1 <? n_mo then last_axis data m else Ok data.

(** [vol_data.astype(np.float32)] *)
Definition astype32 (a : ndarray float) : ndarray float32 :=
  NdArray (shape a) (astype_float32 <$> flat a).

(** ** Transform (lines 169-175) *)

Definition identity4 : list (list float) :=
  [ [fone; fzero; fzero; fzero]; [fzero; fone; fzero; fzero];
    [fzero; fzero; fone; fzero]; [fzero; fzero; fzero; fone] ].

(** [mat[i, :3] = v * scale]: a vector of three entries fills the row, one of
    a single entry is broadcast, any other length is a [ValueError]. *)
Definition assign_row (mat : list (list float)) (i : nat) (v : list float) (scale : float)
  : outcome (list (list float)) :=
  let scaled : list float := (fun x => fmul x scale) <$> v in
  let* row3 :=
    match scaled with
    | [x] => Ok [x; x; x]
    | [x; y; z] => Ok [x; y; z]
    | _ => Raise ValueError
    end in
  Ok (alter (fun row => row3 ++ drop 3 row) i mat).

Definition build_matrix (v1 v2 v3 origin : list float) (scale : float)
  : outcome (list (list float)) :=
  let mat := identity4 in
  let* mat := assign_row mat 0 v1 scale in
  let* mat := assign_row mat 1 v2 scale in
  let* mat := assign_row mat 2 v3 scale in
  let* mat := assign_row mat 3 origin scale in
  Ok mat.

(** ** Grids (lines 177-204) *)


(** The name of the grid of field [m] (lines 183-195). *)
Definition name_of (force_grid_name : option string) (naming_mode : string)
    (is_multi_mo : bool) (n_mo : Z) (mo_indices : list Z) (m : nat) : outcome string :=
  match force_grid_name with
  | Some base =>
      if 1 <? n_mo then Ok (base +:+ "_" +:+ py_str (Z.of_nat m + 1))
      else Ok base
  | None =>
      if is_multi_mo then
        if bool_decide (naming_mode = "MO_INDICES") && negb (bool_decide (mo_indices = []))
        then let* idx := of_option IndexError (mo_indices !! m) in Ok (py_str idx)
        else Ok (py_str (Z.of_nat m + 1))
      else Ok "Density"
  end.

(** One turn of the loop [for m in range(n_mo)]; [namer] is the naming
    branch of the loop body, the only part in which the two readers differ. *)
Definition make_grid (namer : header float → nat → outcome string) (h : header float)
    (data : ndarray float) (tr : transform) (m : nat) : outcome (grid float32 transform) :=
  let* vol := vol_data data (n_mo h) m in
  let* name := namer h m in
  Ok (Grid name (astype32 vol) tr FOG_VOLUME).

(** From the header and the payload text to the grids. *)
Definition grids_with (namer : header float → nat → outcome string) (h : header float)
    (content : string) (scale : float) : outcome (list (grid float32 transform)) :=
  let* data := decode_payload content (n1 h) (n2 h) (n3 h) (n_mo h) in
  let* mat := build_matrix (v1 h) (v2 h) (v3 h) (origin h) scale in
  let* tr := createLinearTransform mat in
  map_outcome (make_grid namer h data tr) (seq 0 (Z.to_nat (n_mo h))).

(** Lines 151-204 of [cube_blender/__init__.py]. *)
Definition grids_of (h : header float) (content : string) (scale : float)
    (naming_mode : string) (force_grid_name : option string) : outcome (list (grid float32 transform)) :=
  grids_with
    (fun h m => name_of force_grid_name naming_mode (is_multi_mo h) (n_mo h) (mo_indices h) m)
    h content scale.

(** ** The file system *)

(** [fs_open path] is the text of the file ([None]: [open] raises
    [OSError]); [fs_listdir dir] the names [os.listdir] returns, in its order. *)
Record filesystem : Type := FileSystem {
  fs_open : string → option string;
  fs_listdir : string → option (list string)
}.

Definition read_vdb_grids (fs : filesystem) (filepath : string) (scale : float)
    (naming_mode : string) (force_grid_name : option string) : outcome (list (grid float32 transform)) :=
  let* content := of_option OSError (fs_open fs filepath) in
  let* (h, payload) := read_header true (lines_of content) in
  grids_of h payload scale naming_mode force_grid_name.

(** ** Paths ([os.path] on POSIX) *)

(** [(p[:i], p[i:])] for [i = p.rfind('/') + 1]. *)
Fixpoint split_last_sep (p : string) : string * string :=
  match p with
  | EmptyString => ("", "")
  | String c r =>
      let '(head, tail) := split_last_sep r in
      if bool_decide (c = "/"%char) || negb (bool_decide (head = ""))
      then (String c head, tail)
      else ("", String c tail)
  end.

(** [s.rstrip('/')] *)
Fixpoint rstrip_sep (s : string) : string :=
  match s with
  | EmptyString => ""
  | String c r =>
      let r' := rstrip_sep r in
      if bool_decide (c = "/"%char) && bool_decide (r' = "") then "" else String c r'
  end.

Definition dirname (p : string) : string :=
  let head := fst (split_last_sep p) in
  if bool_decide (rstrip_sep head = "") then head else rstrip_sep head.

Definition basename (p : string) : string := snd (split_last_sep p).

(** [(s[:d], s[d:])] for the last dot of [s], if it has one. *)
Fixpoint split_last_dot (s : string) : option (string * string) :=
  match s with
  | EmptyString => None
  | String c r =>
      match split_last_dot r with
      | Some (root, ext) => Some (String c root, ext)
      | None => if bool_decide (c = "."%char) then Some ("", s) else None
      end
  end.

Fixpoint all_dots (s : string) : bool :=
  match s with
  | EmptyString => true
  | String c r => bool_decide (c = "."%char) && all_dots r
  end.

(** [os.path.splitext]: the extension starts at the last dot of the last
    component, unless only dots precede it there. *)
Definition splitext (p : string) : string * string :=
  let '(head, tail) := split_last_sep p in
  match split_last_dot tail with
  | Some (root, ext) => if all_dots root then (p, "") else (head +:+ root, ext)
  | None => (p, "")
  end.

Definition starts_with_sep (s : string) : bool :=
  match s with String c _ => bool_decide (c = "/"%char) | EmptyString => false end.

(** [os.path.join(a, b)] *)
Definition join (a b : string) : string :=
  if starts_with_sep b then b
  else if bool_decide (a = "") || ends_with_char "/" a then a +:+ b
  else a +:+ "/" +:+ b.

(** ** The two regular expressions of [load_cube] *)

(** The longest run of digits at the start of [s], and what follows it. *)
Fixpoint span_digits (s : string) : string * string :=
  match s with
  | EmptyString => ("", "")
  | String c r =>
      if is_digit c then let '(d, t) := span_digits r in (String c d, t)
      else ("", s)
  end.

Fixpoint no_dot (s : string) : bool :=
  match s with
  | EmptyString => true
  | String c r => negb (bool_decide (c = "."%char)) && no_dot r
  end.

(** [\.[^.]+$] at the start of [s]: a dot, then at least one character and
    no further dot up to the end. *)
Definition is_extension (s : string) : bool :=
  match s with
  | String c r => bool_decide (c = "."%char) && negb (bool_decide (r = "")) && no_dot r
  | EmptyString => false
  end.

(** [re.search(r'(\d+)(?=(\.[^.]+)$)', filename)]: the first position from
    left at which a run of digits is followed by the extension.  At a given
    start only the longest run can succeed, since a shorter one is followed
    by a digit.  The result is [(filename[:start], group(1), filename[end:])]. *)
Fixpoint re_search (filename : string) : option (string * string * string) :=
  match filename with
  | EmptyString => None
  | String c r =>
      let '(digits, rest) := span_digits filename in
      if negb (bool_decide (digits = "")) && is_extension rest
      then Some ("", digits, rest)
      else match re_search r with
           | Some (prefix, digits, suffix) => Some (String c prefix, digits, suffix)
           | None => None
           end
  end.

Fixpoint strip_prefix (prefix s : string) : option string :=
  match prefix, s with
  | EmptyString, _ => Some s
  | String a p', String b s' => if bool_decide (a = b) then strip_prefix p' s' else None
  | String _ _, EmptyString => None
  end.

(** [pattern.match(f)] for [^prefix(\d+)suffix$] with the escaped literals
    [prefix] and [suffix]; the result is [group(1)].  The suffix of
    [load_cube] starts with a dot, so the group is the longest run of digits
    after the prefix; [$] also matches before a final newline. *)
Definition pattern_match (prefix suffix f : string) : option string :=
  match strip_prefix prefix f with
  | Some rest =>
      let '(digits, tail) := span_digits rest in
      if negb (bool_decide (digits = ""))
         && (bool_decide (tail = suffix) || bool_decide (tail = suffix +:+ String nl ""))
      then Some digits else None
  | None => None
  end.

(** ** [list.sort(key=...)]: a stable sort *)

Fixpoint insert_by {A : Type} (key : A → Z) (x : A) (l : list A) : list A :=
  match l with
  | [] => [x]
  | y :: r => if key x <=? key y then x :: y :: r else y :: insert_by key x r
  end.

Definition sort_by {A : Type} (key : A → Z) (l : list A) : list A :=
  foldr (insert_by key) [] l.

(** ** [load_cube] (lines 206-289 of [cube_blender/__init__.py]) *)

(** The loop over [all_files] (lines 244-253). *)
Fixpoint scan_files (base_dir prefix suffix : string) (all_files : list string)
  : outcome (list (string * string * Z)) :=
  match all_files with
  | [] => Ok []
  | f :: rest =>
      match pattern_match prefix suffix f with
      | Some num_str =>
          let* num_val := int_token num_str in
          let grid_name := py_str num_val in
          let* found := scan_files base_dir prefix suffix rest in
          Ok ((join base_dir f, grid_name, num_val) :: found)
      | None => scan_files base_dir prefix suffix rest
      end
  end.

(** Lines 209-269: the files to process and the name of the output file. *)
Definition sequence_plan (fs : filesystem) (filepath : string) (import_sequence : bool)
  : outcome (list (string * option string) * string) :=
  let base_dir := dirname filepath in
  let filename := basename filepath in
  let output_vdb_name := fst (splitext filepath) +:+ ".vdb" in
  if import_sequence then
    match re_search filename with
    | Some (prefix, digits, suffix) =>
        let name_base :=
          if negb (ends_with_char "_" prefix) && negb (ends_with_char "." prefix)
          then prefix +:+ "_" else prefix in
        let output_vdb_name := join base_dir (name_base +:+ "all.vdb") in
        let* all_files := of_option OSError (fs_listdir fs base_dir) in
        let* found_sequences := scan_files base_dir prefix suffix all_files in
        let found_sequences := sort_by snd found_sequences in
        if negb (bool_decide (found_sequences = [])) then
          Ok ((fun x => (x.1.1, Some x.1.2)) <$> found_sequences, output_vdb_name)
        else Ok ([(filepath, None)], output_vdb_name)
    | None => Ok ([(filepath, None)], output_vdb_name)
    end
  else Ok ([(filepath, None)], output_vdb_name).

(** Lines 271-278: every exception of a file is caught and the file skipped. *)
Fixpoint read_all (fs : filesystem) (to_process : list (string * option string))
    (scale : float) (naming_mode : string) : outcome (list (grid float32 transform)) :=
  match to_process with
  | [] => Ok []
  | (path, custom_name) :: rest =>
      match read_vdb_grids fs path scale naming_mode custom_name with
      | Ok grids =>
          let* more := read_all fs rest scale naming_mode in Ok (grids ++ more)
      | Raise _ => read_all fs rest scale naming_mode
      | Diverge => Diverge
      end
  end.


(** Lines 271-284 for a given plan. *)
Definition write_batch (fs : filesystem) (to_process : list (string * option string))
    (output_vdb_name : string) (scale : float) (naming_mode : string)
  : list (event float32 transform) * outcome unit :=
  match read_all fs to_process scale naming_mode with
  | Ok all_grids =>
      if bool_decide (all_grids = []) then ([], Raise (RuntimeError "No grids loaded."))
      else ([VdbWrite output_vdb_name all_grids], Ok tt)
  | Raise e => ([], Raise e)
  | Diverge => ([], Diverge)
  end.

(** [load_cube] up to the call of the writer: the calls made and the outcome. *)
Definition load_cube (fs : filesystem) (filepath : string) (scale : float)
    (naming_mode : string) (import_sequence : bool) : list (event float32 transform) * outcome unit :=
  match sequence_plan fs filepath import_sequence with
  | Ok (to_process, output_vdb_name) =>
      write_batch fs to_process output_vdb_name scale naming_mode
  | Raise e => ([], Raise e)
  | Diverge => ([], Diverge)
  end.

(** ** Views used to state the properties *)


(** The header parser followed by the payload decoder alone: lines 96-164,
    the slices of lines 178-181 and the conversion of line 199, without
    transform and names. *)
Definition scalar_fields (content : string) : outcome (list (ndarray float32)) :=
  let* (h, payload) := read_header true (lines_of content) in
  let* data := decode_payload payload (n1 h) (n2 h) (n3 h) (n_mo h) in
  let* vols := map_outcome (vol_data data (n_mo h)) (seq 0 (Z.to_nat (n_mo h))) in
  Ok (astype32 <$> vols).

(** The atom count a file declares: the first token of its third line. *)
Definition declared_atom_count (f : stream) : option Z :=
  l ← f !! 2%nat; tok ← split l !! 0%nat; py_int tok.

End Reader.

(** ** The older add-on, [import_cube_addon.py] *)

Module Addon.
Section Addon.
Context `{RT : Runtime}.

(** Lines 205-211. *)
Definition name_of (naming_mode : string) (is_multi_mo : bool) (mo_indices : list Z)
    (m : nat) : outcome string :=
  if is_multi_mo then
    if bool_decide (naming_mode = "MO_INDICES") && negb (bool_decide (mo_indices = []))
    then let* idx := of_option IndexError (mo_indices !! m) in Ok ("MO_" +:+ py_str idx)
    else Ok ("MO_" +:+ py_str (Z.of_nat m + 1))
  else Ok "Density".

(** Lines 166-219. *)
Definition grids_of (h : header float) (content : string) (scale : float)
    (naming_mode : string) : outcome (list (grid float32 transform)) :=
  grids_with (fun h m => name_of naming_mode (is_multi_mo h) (mo_indices h) m)
    h content scale.

(** [load_cube] up to the call of the writer (lines 96-224). *)
Definition load_cube (fs : filesystem) (filepath : string) (scale : float)
    (naming_mode : string) : list (event float32 transform) * outcome unit :=
  let run :=
    let* content := of_option OSError (fs_open fs filepath) in
    let* (h, payload) := read_header false (lines_of content) in
    grids_of h payload scale naming_mode in
  match run with
  | Ok grids =>
      let output_vdb := fst (splitext filepath) +:+ ".vdb" in
      ([VdbWrite output_vdb grids], Ok tt)
  | Raise e => ([], Raise e)
  | Diverge => ([], Diverge)
  end.

End Addon.
End Addon.


(** ** A concrete runtime: IEEE 754 binary64 and binary32

    Floats are [spec_float] values.  The token reader covers plain decimal
    literals ([-12], [0.25], [1.5E-03]), correctly rounded to binary64; on
    these [float] and [np.fromstring] agree.  [np.fromstring] stops at the
    first token it cannot read. *)

Module Spec.

Definition b64_mul : spec_float → spec_float → spec_float := SFmul 53 1024.
Definition b64_add : spec_float → spec_float → spec_float := SFadd 53 1024.
Definition b64_sub : spec_float → spec_float → spec_float := SFsub 53 1024.

(** The binary64 number nearest to [m * 10^e]: exact integers are rounded
    once; a quotient is cut after more than 64 bits, with a sticky bit for
    the remainder, and then rounded. *)
Definition of_decimal (sign : bool) (m : Z) (e : Z) : spec_float :=
  match m with
  | Zpos p =>
      if 0 <=? e then binary_round 53 1024 sign (Z.to_pos (Zpos p * 10 ^ e)) 0
      else
        let d := 10 ^ (- e) in
        let s := Z.max 0 (64 + Z.log2 d - Z.log2 (Zpos p)) in
        let q := (Zpos p * 2 ^ s) / d in
        let r := (Zpos p * 2 ^ s) mod d in
        let sticky := if r =? 0 then 0 else 1 in
        binary_round 53 1024 sign (Z.to_pos (2 * q + sticky)) (- s - 1)
  | _ => S754_zero sign
  end.

(** Plain digits: the value and the number of digits. *)
Fixpoint plain_digits (acc : Z) (n : Z) (s : string) : option (Z * Z * string) :=
  match s with
  | String c r =>
      if is_digit c then plain_digits (acc * 10 + digit_value c) (n + 1) r
      else Some (acc, n, s)
  | EmptyString => Some (acc, n, s)
  end.

Definition signed (s : string) : bool * string :=
  match s with
  | String "-" r => (true, r)
  | String "+" r => (false, r)
  | _ => (false, s)
  end.

Definition exponent_part (s : string) : option Z :=
  match s with
  | EmptyString => Some 0
  | String c r =>
      if bool_decide (c = "e"%char) || bool_decide (c = "E"%char) then
        let '(neg, r) := signed r in
        match plain_digits 0 0 r with
        | Some (v, n, EmptyString) =>
            if 0 <? n then Some (if neg then - v else v) else None
        | _ => None
        end
      else None
  end.

Definition decimal_literal (tok : string) : option spec_float :=
  let '(neg, s) := signed tok in
  '(ip, ni, s) ← plain_digits 0 0 s;
  '(fp, nf, s) ← match s with
                 | String "." r => plain_digits ip 0 r
                 | _ => Some (ip, 0, s)
                 end;
  if (ni + nf =? 0) then None else
  e ← exponent_part s;
  Some (of_decimal neg fp (e - nf)).

Fixpoint read_values (toks : list string) : list spec_float :=
  match toks with
  | [] => []
  | t :: r => match decimal_literal t with
              | Some x => x :: read_values r
              | None => []
              end
  end.

Definition to_b32 (x : spec_float) : spec_float :=
  match x with
  | S754_finite s m e => binary_round 24 128 s m e
  | _ => x
  end.

Definition zero : spec_float := S754_zero false.
Definition one : spec_float := of_decimal false 1 0.

Definition entry (mat : list (list spec_float)) (i j : nat) : spec_float :=
  default zero (mat !! i ≫= (.!! j)).

(** The determinant of the upper left 3x3 block. *)
Definition det3 (a : list (list spec_float)) : spec_float :=
  let e := entry a in
  let minor (p q r s : spec_float) := b64_sub (b64_mul p s) (b64_mul q r) in
  b64_add
    (b64_sub (b64_mul (e 0 0)%nat (minor (e 1 1) (e 1 2) (e 2 1) (e 2 2))%nat)
             (b64_mul (e 0 1)%nat (minor (e 1 0) (e 1 2) (e 2 0) (e 2 2))%nat))
    (b64_mul (e 0 2)%nat (minor (e 1 0) (e 1 1) (e 2 0) (e 2 1))%nat).

(** OpenVDB builds an affine map and refuses a nearly singular matrix. *)
Definition linear_transform (mat : list (list spec_float))
  : outcome (list (list spec_float)) :=
  if SFltb (SFabs (det3 mat)) (of_decimal false 3 (-15))
  then Raise ArithmeticError else Ok mat.

End Spec.

#[export] Instance SpecRuntime : Runtime := {|
  float := spec_float;
  float32 := spec_float;
  py_float := Spec.decimal_literal;
  np_fromstring := fun content => Spec.read_values (split content);
  fzero := Spec.zero;
  fone := Spec.one;
  fmul := Spec.b64_mul;
  astype_float32 := Spec.to_b32;
  transform := list (list spec_float);
  createLinearTransform := Spec.linear_transform;
  np_fromstring_empty := eq_refl
|}.

(** ** Concrete files *)

Module Examples.

(** The text whose lines are [ls]. *)
Definition text (ls : list string) : string :=
  String.concat "" ((fun l => l +:+ String nl "") <$> ls).

Definition fl (s : string) : spec_float := default S754_nan (Spec.decimal_literal s).

(** A directory [/d] holding the given files, listed in the given order. *)
Definition dir (files : list (string * string)) : filesystem :=
  FileSystem
    (fun path => snd <$> List.find (fun e => bool_decide ("/d/" +:+ fst e = path)) files)
    (fun d => if bool_decide (d = "/d") then Some (fst <$> files) else None).

Definition density_2x2x2 : string :=
  text [ "title"; "comment";
         "1 0.0 0.0 0.0";
         "2 1.0 0.0 0.0";
         "2 0.0 1.0 0.0";
         "2 0.0 0.0 1.0";
         "1 1.0 0.0 0.0 0.0";
         "1 2 3 4 5 6";
         "7 8" ].

Definition two_orbitals : string :=
  text [ "title"; "comment";
         "-1 0.0 0.0 0.0";
         "1 1.0 0.0 0.0";
         "1 0.0 1.0 0.0";
         "2 0.0 0.0 1.0";
         "1 1.0 0.0 0.0 0.0";
         "2 5 7";
         "1 2 3 4" ].

(** A single-field file cut after its six header lines: it declares one atom
    and holds neither the atom line nor any value. *)
Definition truncated_density : string :=
  text [ "title"; "comment";
         "1 0.0 0.0 0.0";
         "2 1.0 0.0 0.0";
         "2 0.0 1.0 0.0";
         "2 0.0 0.0 1.0" ].

(** An orbital header that declares three indices and ends after two. *)
Definition missing_indices : string :=
  text [ "title"; "comment";
         "-1 0.0 0.0 0.0";
         "1 1.0 0.0 0.0";
         "1 0.0 1.0 0.0";
         "2 0.0 0.0 1.0";
         "1 1.0 0.0 0.0 0.0";
         "3 5 7" ].

End Examples.

(** ** The operator ([ImportGaussianCube.execute], lines 60-88 of
    [cube_blender/__init__.py] and 62-90 of [import_cube_addon.py]) *)

(** The result sets [{'FINISHED'}] and [{'CANCELLED'}]. *)
Inductive op_result : Type := FINISHED | CANCELLED.

(** The calls [self.report({'ERROR'}, ...)]: the missing module, a file of the
    selection that failed (its name and the exception), or the single path
    that failed. *)
Inductive report : Type :=
  | NoOpenVDB
  | FailedFile (name : string) (e : exn)
  | FailedCube (e : exn).

Section Operator.
Context {F32 T : Type}.

(** What a call of [load_cube] does: the writer calls and the outcome. *)
Definition loader : Type := string → list (event F32 T) * outcome unit.

(** The loop [for file in self.files] with its [try]: the reports, the writer
    calls and the flag [success]. *)
Fixpoint import_files (load : loader) (directory : string) (files : list string)
    (success : bool) : list report * list (event F32 T) * outcome bool :=
  match files with
  | [] => ([], [], Ok success)
  | name :: rest =>
      let filepath := join directory name in
      match load filepath with
      | (evs, Ok _) =>
          let '(reports, more, out) := import_files load directory rest true in
          (reports, evs ++ more, out)
      | (evs, Raise e) =>
          let '(reports, more, out) := import_files load directory rest success in
          (FailedFile name e :: reports, evs ++ more, out)
      | (evs, Diverge) => ([], evs, Diverge)
      end
  end.

(** [execute]: [openvdb] tells whether the module was imported, [files] are
    the names of [self.files], [filepath] is [self.filepath]. *)
Definition execute_with (load : loader) (openvdb : bool) (filepath directory : string)
    (files : list string) : list report * list (event F32 T) * outcome op_result :=
  if negb openvdb then ([NoOpenVDB], [], Ok CANCELLED)
  else if negb (bool_decide (files = [])) then
    match import_files load directory files false with
    | (reports, evs, Ok success) =>
        (reports, evs, Ok (if success then FINISHED else CANCELLED))
    | (reports, evs, Raise e) => (reports, evs, Raise e)
    | (reports, evs, Diverge) => (reports, evs, Diverge)
    end
  else
    match load filepath with
    | (evs, Ok _) => ([], evs, Ok FINISHED)
    | (evs, Raise e) => ([FailedCube e], evs, Ok CANCELLED)
    | (evs, Diverge) => ([], evs, Diverge)
    end.

End Operator.

Section Operators.
Context `{RT : Runtime}.

(** [execute] of [cube_blender]. *)
Definition execute (fs : filesystem) (openvdb : bool) (filepath directory : string)
    (files : list string) (scale_factor : float) (naming_mode : string)
    (import_sequence : bool) :=
  execute_with (fun p => load_cube fs p scale_factor naming_mode import_sequence)
    openvdb filepath directory files.


(** The grid of the add-on that corresponds to a grid of [read_vdb_grids]: the
    same grid, named with the prefix "MO_" under multi-field framing. *)
Definition with_mo_prefix (multi : bool) (g : grid float32 transform)
  : grid float32 transform :=
  if multi
  then Grid ("MO_" +:+ grid_name g) (grid_values g) (grid_transform g) (gridClass g)
  else g.

End Operators.

(** Strings of decimal digits. *)
Fixpoint all_digits (s : string) : bool :=
  match s with
  | EmptyString => true
  | String c r => is_digit c && all_digits r
  end.

(** A decimal numeral without superfluous zero: "0" itself, or a first
    character other than "0". *)
Definition no_leading_zero (s : string) : Prop :=
  s = "0" ∨ ∃ c r, s = String c r ∧ c ≠ "0"%char.

(** The listed names that match the pattern, each with its run of digits and
    the integer the run denotes, in the order of the listing. *)
Definition matched_files (prefix suffix : string) (all_files : list string)
  : list (string * string * Z) :=
  omap (fun f => ds ← pattern_match prefix suffix f; v ← py_int ds; Some (f, ds, v))
       all_files.

(** * Properties *)

(** ** Outcomes *)

Lemma bind_Ok {A B : Type} (m : outcome A) (k : A → outcome B) (b : B) :
  bind m k = Ok b → ∃ a, m = Ok a ∧ k a = Ok b.
Proof. destruct m; simpl; intros; try discriminate; eauto. Qed.

Ltac inv_bind H :=
  let a := fresh "a" in
  let Ha := fresh "Ha" in
  apply bind_Ok in H; destruct H as (a & Ha & H).

Lemma map_outcome_total {A B : Type} (g : A → outcome B) (h : A → B) (xs : list A) :
  Forall (fun x => g x = Ok (h x)) xs → map_outcome g xs = Ok (h <$> xs).
Proof.
  induction 1 as [|x xs Hx _ IH]; simpl; [done|].
  by rewrite Hx, IH.
Qed.

Lemma map_outcome_Ok {A B : Type} (g : A → outcome B) (xs : list A) (ys : list B) :
  map_outcome g xs = Ok ys → Forall2 (fun x y => g x = Ok y) xs ys.
Proof.
  revert ys; induction xs as [|x xs IH]; simpl; intros ys H.
  - injection H as <-. constructor.
  - inv_bind H. inv_bind H. injection H as <-. constructor; auto.
Qed.

Lemma Forall2_map_outcome {A B : Type} (g : A → outcome B) (xs : list A) (ys : list B) :
  Forall2 (fun x y => g x = Ok y) xs ys → map_outcome g xs = Ok ys.
Proof.
  induction 1 as [|x y xs ys Hx _ IH]; simpl; [done|]. by rewrite Hx, IH.
Qed.

(** ** Arrays *)

Lemma omap_lookup_Forall2 {A : Type} (l : list A) (pos : nat → nat) (vs : list nat) :
  Forall (fun v => (pos v < length l)%nat) vs →
  Forall2 (fun v x => l !! pos v = Some x) vs (omap (fun v => l !! pos v) vs).
Proof.
  induction 1 as [|v vs Hv _ IH]; simpl; [constructor|].
  destruct (lookup_lt_is_Some_2 l (pos v) Hv) as [x Hx].
  rewrite Hx. by constructor.
Qed.

Section Payload.
Context `{RT : Runtime}.

Lemma reconcile_spec (data : list float) (expected_len : Z) :
  0 ≤ expected_len →
  reconcile data expected_len
  = take (Z.to_nat expected_len) data
    ++ replicate (Z.to_nat expected_len - length data) fzero.
Proof.
  intros He. unfold reconcile, slice_to, np_pad.
  destruct (Z.eqb_spec (Z.of_nat (length data)) expected_len) as [Heq|Hne]; simpl.
  - rewrite take_ge by lia.
    replace (Z.to_nat expected_len - length data)%nat with 0%nat by lia.
    simpl. by rewrite app_nil_r.
  - destruct (Z.ltb_spec expected_len (Z.of_nat (length data))).
    + destruct (Z.ltb_spec expected_len 0); [lia|].
      replace (Z.to_nat expected_len - length data)%nat with 0%nat by lia.
      simpl. by rewrite app_nil_r.
    + rewrite take_ge by lia. do 2 f_equal. lia.
Qed.

Lemma reconcile_length (data : list float) (expected_len : Z) :
  0 ≤ expected_len →
  length (reconcile data expected_len) = Z.to_nat expected_len.
Proof.
  intros He. rewrite reconcile_spec by done.
  rewrite length_app, length_take, length_replicate. lia.
Qed.

Lemma reconcile_lookup (data : list float) (expected_len : Z) (p : nat) :
  0 ≤ expected_len → (p < Z.to_nat expected_len)%nat →
  reconcile data expected_len !! p = Some (default fzero (data !! p)).
Proof.
  intros He Hp. rewrite reconcile_spec by done.
  destruct (decide (p < length data)%nat) as [Hlt|Hge].
  - rewrite lookup_app_l by (rewrite length_take; lia).
    rewrite lookup_take_lt by lia.
    destruct (lookup_lt_is_Some_2 data p Hlt) as [x ->]. done.
  - rewrite lookup_app_r by (rewrite length_take; lia).
    rewrite length_take, lookup_replicate_2 by lia.
    by rewrite lookup_ge_None_2 by lia.
Qed.

Lemma reshape_payload_Ok (data : list float) (n1 n2 n3 n_mo : Z) :
  0 ≤ n1 → 0 ≤ n2 → 0 ≤ n3 → 1 ≤ n_mo →
  Z.of_nat (length data) = n1 * n2 * n3 * n_mo →
  reshape_payload data n1 n2 n3 n_mo
  = Ok (NdArray (if 1 <? n_mo then [n1; n2; n3; n_mo] else [n1; n2; n3]) data).
Proof.
  intros H1 H2 H3 HF Hlen. unfold reshape_payload, np_reshape.
  destruct (Z.ltb_spec 1 n_mo); simpl.
  - repeat (match goal with |- context [?a <? 0] =>
              destruct (Z.ltb_spec a 0); [lia|] end); simpl.
    repeat (match goal with |- context [0 <=? ?a] =>
              destruct (Z.leb_spec 0 a); [|lia] end); simpl.
    unfold product; simpl.
    destruct (Z.eqb_spec (Z.of_nat (length data)) (n1 * (n2 * (n3 * (n_mo * 1)))));
      [done|lia].
  - repeat (match goal with |- context [?a <? 0] =>
              destruct (Z.ltb_spec a 0); [lia|] end); simpl.
    repeat (match goal with |- context [0 <=? ?a] =>
              destruct (Z.leb_spec 0 a); [|lia] end); simpl.
    unfold product; simpl.
    destruct (Z.eqb_spec (Z.of_nat (length data)) (n1 * (n2 * (n3 * 1))));
      [done|nia].
Qed.

Lemma decode_payload_Ok (content : string) (n1 n2 n3 n_mo : Z) :
  0 ≤ n1 → 0 ≤ n2 → 0 ≤ n3 → 1 ≤ n_mo →
  decode_payload content n1 n2 n3 n_mo
  = Ok (NdArray (if 1 <? n_mo then [n1; n2; n3; n_mo] else [n1; n2; n3])
          (reconcile (np_fromstring content) (n1 * n2 * n3 * n_mo))).
Proof.
  intros. unfold decode_payload. apply reshape_payload_Ok; try done.
  rewrite reconcile_length by nia. nia.
Qed.

End Payload.

Section Fields.
Context `{RT : Runtime}.

(** The array of one field: its shape, its size, and where each of its
    elements sits in the flat array of all fields. *)
Lemma vol_data_Ok (l : list float) (n1 n2 n3 F : Z) (m : nat) :
  0 ≤ n1 → 0 ≤ n2 → 0 ≤ n3 → 1 ≤ F →
  Z.of_nat (length l) = n1 * n2 * n3 * F →
  Z.of_nat m < F →
  ∃ vol,
    vol_data (NdArray (if 1 <? F then [n1; n2; n3; F] else [n1; n2; n3]) l) F m = Ok vol
    ∧ shape vol = [n1; n2; n3]
    ∧ length (flat vol) = Z.to_nat (n1 * n2 * n3)
    ∧ ∀ v, (v < Z.to_nat (n1 * n2 * n3))%nat →
           flat vol !! v = l !! (v * Z.to_nat F + m)%nat.
Proof.
  intros H1 H2 H3 HF Hlen Hm. unfold vol_data.
  destruct (Z.ltb_spec 1 F) as [Hmulti|Hone].
  - unfold last_axis; simpl.
    destruct (Z.ltb_spec (Z.of_nat m) F); [|lia].
    set (pos := fun v : nat => (v * Z.to_nat F + m)%nat).
    assert (Hall : Forall (fun v => (pos v < length l)%nat) (seq 0 (Z.to_nat (n1 * n2 * n3)))).
    { apply Forall_forall. intros v Hv%elem_of_seq. unfold pos. nia. }
    pose proof (omap_lookup_Forall2 l pos _ Hall) as HF2. unfold pos in HF2.
    eexists; split; [reflexivity|]. simpl. split; [done|]. split.
    + apply Forall2_length in HF2. rewrite <- HF2. apply length_seq.
    + intros v Hv.
      destruct (Forall2_lookup_l _ _ _ v v HF2) as (x & Hx & Hpos).
      { apply lookup_seq. lia. }
      by rewrite Hx, Hpos.
  - assert (F = 1) as -> by lia. assert (m = 0%nat) as -> by lia.
    eexists; split; [reflexivity|]. simpl. split; [done|]. split; [lia|].
    intros v _. f_equal. lia.
Qed.

Lemma concat_length_uniform (n : nat) (fields : list (ndarray float)) :
  Forall (fun a => length (flat a) = n) fields →
  length (concat (flat <$> fields)) = (length fields * n)%nat.
Proof.
  induction 1 as [|a fields Ha _ IH]; [done|].
  rewrite fmap_cons. cbn [concat length]. rewrite length_app, IH, Ha. lia.
Qed.

End Fields.

(** ** C1: the payload decoder reconciles the number of values *)

(** C1. For voxel counts [n1], [n2], [n3] (not negative) and a field count
    [F] of at least one, the decoder raises no error and returns [F] arrays
    of [n1*n2*n3] values each, [n1*n2*n3*F] values in all.  With [K] values
    too many, the flat result is the payload without its last [K] values;
    with [K] values too few, it is the payload followed by [K] zeros.  Both
    readers, [read_vdb_grids] and the add-on's [load_cube], decode through
    [decode_payload]. *)
Theorem C1_payload_length_reconciled `{RT : Runtime}
    (content : string) (n1 n2 n3 F : Z) :
  0 ≤ n1 → 0 ≤ n2 → 0 ≤ n3 → 1 ≤ F →
  let tokens := np_fromstring content in
  let expected := n1 * n2 * n3 * F in
  ∃ data fields,
    decode_payload content n1 n2 n3 F = Ok data
    ∧ map_outcome (vol_data data F) (seq 0 (Z.to_nat F)) = Ok fields
    ∧ Z.of_nat (length fields) = F
    ∧ Forall (fun a => Z.of_nat (length (flat a)) = n1 * n2 * n3) fields
    ∧ Z.of_nat (length (concat (flat <$> fields))) = expected
    ∧ Z.of_nat (length (flat data)) = expected
    ∧ (∀ K, 0 ≤ K → Z.of_nat (length tokens) = expected + K →
         tokens = flat data ++ drop (Z.to_nat expected) tokens
         ∧ Z.of_nat (length (drop (Z.to_nat expected) tokens)) = K)
    ∧ (∀ K, 0 ≤ K → Z.of_nat (length tokens) = expected - K →
         flat data = tokens ++ replicate (Z.to_nat K) fzero).
Proof.
  intros H1 H2 H3 HF tokens expected.
  assert (Hexp : 0 ≤ expected) by (unfold expected; nia).
  rewrite decode_payload_Ok by done.
  set (l := reconcile (np_fromstring content) (n1 * n2 * n3 * F)).
  assert (Hlen : Z.of_nat (length l) = n1 * n2 * n3 * F).
  { unfold l. rewrite reconcile_length by done. fold expected. lia. }
  set (data := NdArray _ l).
  assert (Hfields : ∃ fields,
    Forall2 (fun m vol => vol_data data F m = Ok vol) (seq 0 (Z.to_nat F)) fields
    ∧ Forall (fun a => length (flat a) = Z.to_nat (n1 * n2 * n3)) fields).
  { assert (Hrange : Forall (fun m => Z.of_nat m < F) (seq 0 (Z.to_nat F))).
    { apply Forall_forall. intros m Hm%elem_of_seq. lia. }
    induction Hrange as [|m ms Hm _ IH].
    - exists []. split; constructor.
    - destruct IH as (fields & Hf & Hl).
      destruct (vol_data_Ok l n1 n2 n3 F m H1 H2 H3 HF Hlen Hm) as (vol & Hv & _ & Hn & _).
      exists (vol :: fields). split; constructor; auto. }
  destruct Hfields as (fields & Hf2 & Hsizes).
  exists data, fields. split; [done|].
  split; [by apply Forall2_map_outcome|].
  split. { apply Forall2_length in Hf2. rewrite length_seq in Hf2. lia. }
  split. { eapply Forall_impl; [exact Hsizes|]. simpl. intros a Ha. rewrite Ha. nia. }
  split.
  { rewrite (concat_length_uniform _ _ Hsizes).
    apply Forall2_length in Hf2. rewrite length_seq in Hf2.
    unfold expected. nia. }
  split; [done|].
  simpl. unfold l. fold tokens. fold expected. rewrite reconcile_spec by done.
  split.
  - intros K HK Htok.
    replace (Z.to_nat expected - length tokens)%nat with 0%nat by lia.
    simpl. rewrite app_nil_r, take_drop. split; [done|].
    rewrite length_drop. lia.
  - intros K HK Htok. rewrite take_ge by lia. do 2 f_equal. lia.
Qed.

(** The payload of [two_orbitals] holds four values for [1*1*2*2]; one value
    more is dropped, one less is replaced by a zero. *)
Lemma C1_payload_length_reconciled_witness :
  ∃ data fields,
    decode_payload (RT := SpecRuntime) "1 2 3 4 5" 1 1 2 2 = Ok data
    ∧ map_outcome (vol_data data 2) (seq 0 (Z.to_nat 2)) = Ok fields
    ∧ flat data = Examples.fl <$> ["1"; "2"; "3"; "4"].
Proof.
  destruct (C1_payload_length_reconciled (RT := SpecRuntime) "1 2 3 4 5" 1 1 2 2)
    as (data & fields & Hd & Hf & _ & _ & _ & _ & _ & _); [lia..|].
  exists data, fields. split; [exact Hd|]. split; [exact Hf|].
  vm_compute in Hd. injection Hd as <-. reflexivity.
Defined.

(** ** C2: the position of a voxel of a field in the payload *)

(** C2. The value of field [m] at voxel [(i, j, k)] is the payload value at
    position [((i*n2 + j)*n3 + k)*F + m] (zero when the payload is too
    short to hold it); the grid stores its conversion to 32 bits.  For a
    single field this is position [(i*n2 + j)*n3 + k], so the single-field
    2x2x2 file with payload 1 to 8 yields one grid, named "Density", whose
    flat contents are 1 to 8. *)
Theorem C2_field_layout :
  (∀ (RT : Runtime) (content : string) (n1 n2 n3 F : Z) (i j k m : nat),
     Z.of_nat i < n1 → Z.of_nat j < n2 → Z.of_nat k < n3 →
     Z.of_nat m < F →
     let tokens := np_fromstring content in
     let position := (((i * Z.to_nat n2 + j) * Z.to_nat n3 + k) * Z.to_nat F + m)%nat in
     ∃ data vol,
       decode_payload content n1 n2 n3 F = Ok data
       ∧ vol_data data F m = Ok vol
       ∧ get3 vol i j k = Some (default fzero (tokens !! position))
       ∧ get3 (astype32 vol) i j k
         = Some (astype_float32 (default fzero (tokens !! position))))
  ∧ read_vdb_grids (RT := SpecRuntime)
      (Examples.dir [("a.cub", Examples.density_2x2x2)]) "/d/a.cub"
      (Examples.fl "1") "MO_INDICES" None
    = Ok [Grid "Density"
            (NdArray [2; 2; 2]
               (Spec.to_b32 ∘ Examples.fl <$> ["1"; "2"; "3"; "4"; "5"; "6"; "7"; "8"]))
            (identity4 (RT := SpecRuntime)) FOG_VOLUME].
Proof.
  split.
  - intros RT content n1 n2 n3 F i j k m Hi Hj Hk Hm tokens position.
    assert (H1 : 0 ≤ n1) by lia. assert (H2 : 0 ≤ n2) by lia.
    assert (H3 : 0 ≤ n3) by lia. assert (HF : 1 ≤ F) by lia.
    rewrite decode_payload_Ok by done.
    set (l := reconcile (np_fromstring content) (n1 * n2 * n3 * F)).
    assert (Hlen : Z.of_nat (length l) = n1 * n2 * n3 * F).
    { unfold l. rewrite reconcile_length by nia. nia. }
    destruct (vol_data_Ok l n1 n2 n3 F m H1 H2 H3 HF Hlen Hm)
      as (vol & Hv & Hshape & Hsize & Hat).
    set (v := ((i * Z.to_nat n2 + j) * Z.to_nat n3 + k)%nat).
    assert (Hvox : (v < Z.to_nat (n1 * n2 * n3))%nat).
    { rewrite !Z2Nat.inj_mul by nia.
      assert ((S i ≤ Z.to_nat n1)%nat) by lia.
      assert ((S j ≤ Z.to_nat n2)%nat) by lia.
      assert ((S k ≤ Z.to_nat n3)%nat) by lia.
      assert ((S i * Z.to_nat n2 ≤ Z.to_nat n1 * Z.to_nat n2)%nat)
        by (apply Nat.mul_le_mono_r; lia).
      assert ((S (i * Z.to_nat n2 + j) * Z.to_nat n3
               ≤ Z.to_nat n1 * Z.to_nat n2 * Z.to_nat n3)%nat)
        by (apply Nat.mul_le_mono_r; lia).
      unfold v. lia. }
    assert (Hget : get3 vol i j k = Some (default fzero (tokens !! position))).
    { unfold get3. rewrite Hshape.
      destruct (Z.ltb_spec (Z.of_nat i) n1); [|lia].
      destruct (Z.ltb_spec (Z.of_nat j) n2); [|lia].
      destruct (Z.ltb_spec (Z.of_nat k) n3); [|lia]. simpl.
      fold v. rewrite (Hat v Hvox). unfold l.
      apply reconcile_lookup; [nia|].
      rewrite (Z2Nat.inj_mul (n1 * n2 * n3) F) by nia.
      assert ((m < Z.to_nat F)%nat) by lia.
      assert ((S v * Z.to_nat F ≤ Z.to_nat (n1 * n2 * n3) * Z.to_nat F)%nat)
        by (apply Nat.mul_le_mono_r; lia).
      unfold position. fold v. lia. }
    exists (NdArray (if 1 <? F then [n1; n2; n3; F] else [n1; n2; n3]) l), vol.
    split; [done|]. split; [done|]. split; [done|].
    unfold get3 in *. unfold astype32. simpl. rewrite Hshape in *.
    destruct ((Z.of_nat i <? n1) && (Z.of_nat j <? n2) && (Z.of_nat k <? n3));
      [|discriminate].
    rewrite list_lookup_fmap, Hget. done.
  - vm_compute. reflexivity.
Qed.

(** The second orbital of [two_orbitals] at voxel [(0, 0, 1)] is the payload
    value at position 3. *)
Lemma C2_field_layout_witness :
  ∃ data vol,
    decode_payload (RT := SpecRuntime) "1 2 3 4" 1 1 2 2 = Ok data
    ∧ vol_data data 2 1 = Ok vol
    ∧ get3 vol 0%nat 0%nat 1%nat = Some (Examples.fl "4").
Proof.
  destruct C2_field_layout as [Hgen _].
  destruct (Hgen SpecRuntime "1 2 3 4" 1 1 2 2 0%nat 0%nat 1%nat 1%nat)
    as (data & vol & Hd & Hv & Hg & _); [lia..|].
  exists data, vol. split; [exact Hd|]. split; [exact Hv|]. exact Hg.
Defined.

(** ** C6: the transform matrix *)

(** C6. For basis vectors [(x1,y1,z1)], [(x2,y2,z2)], [(x3,y3,z3)], an origin
    [(ox,oy,oz)] and a scale, the matrix has the scaled basis vectors as its
    rows 0 to 2, the scaled origin as the first three entries of row 3, and
    [(0,0,0,1)] as its fourth column.  With the unit basis, the zero
    origin and scale 2.0, the diagonal is 2.0, 2.0, 2.0 and the translation
    row is zero. *)
Theorem C6_transform_matrix :
  (∀ (RT : Runtime) (x1 y1 z1 x2 y2 z2 x3 y3 z3 ox oy oz scale : float),
     build_matrix [x1; y1; z1] [x2; y2; z2] [x3; y3; z3] [ox; oy; oz] scale
     = Ok [ [fmul x1 scale; fmul y1 scale; fmul z1 scale; fzero];
            [fmul x2 scale; fmul y2 scale; fmul z2 scale; fzero];
            [fmul x3 scale; fmul y3 scale; fmul z3 scale; fzero];
            [fmul ox scale; fmul oy scale; fmul oz scale; fone] ])
  ∧ (let f := Examples.fl in
     build_matrix (RT := SpecRuntime)
       [f "1"; f "0"; f "0"] [f "0"; f "1"; f "0"] [f "0"; f "0"; f "1"]
       [f "0"; f "0"; f "0"] (f "2.0")
     = Ok [ [f "2.0"; f "0"; f "0"; f "0"];
            [f "0"; f "2.0"; f "0"; f "0"];
            [f "0"; f "0"; f "2.0"; f "0"];
            [f "0"; f "0"; f "0"; f "1"] ]).
Proof.
  split.
  - intros. reflexivity.
  - vm_compute. reflexivity.
Qed.

(** ** Names and contents of the grids of one file *)

Section Grids.
Context `{RT : Runtime}.

Lemma make_grid_Ok namer h data tr m g :
  make_grid namer h data tr m = Ok g →
  namer h m = Ok (grid_name g)
  ∧ ∃ vol, vol_data data (n_mo h) m = Ok vol ∧ grid_values g = astype32 vol.
Proof.
  unfold make_grid. intros H. inv_bind H. inv_bind H. injection H as <-.
  simpl. eauto.
Qed.

Lemma make_grids_Ok namer h data tr ms grids :
  map_outcome (make_grid namer h data tr) ms = Ok grids →
  Forall2 (fun m g => namer h m = Ok (grid_name g)) ms grids
  ∧ ∃ vols, map_outcome (vol_data data (n_mo h)) ms = Ok vols
            ∧ grid_values <$> grids = astype32 <$> vols.
Proof.
  revert grids. induction ms as [|m ms IH]; simpl; intros grids H.
  - injection H as <-. split; [constructor|]. by exists [].
  - inv_bind H. inv_bind H. injection H as <-.
    destruct (make_grid_Ok _ _ _ _ _ _ Ha) as (Hn & vol & Hv & Hg).
    destruct (IH _ Ha0) as (Hns & vols & Hvs & Hgs).
    split; [by constructor|].
    exists (vol :: vols). rewrite Hv, Hvs. split; [done|].
    rewrite !fmap_cons. by rewrite Hg, Hgs.
Qed.

Lemma grids_with_Ok namer h content scale grids :
  grids_with namer h content scale = Ok grids →
  Forall2 (fun m g => namer h m = Ok (grid_name g)) (seq 0 (Z.to_nat (n_mo h))) grids
  ∧ ∃ data vols,
      decode_payload content (n1 h) (n2 h) (n3 h) (n_mo h) = Ok data
      ∧ map_outcome (vol_data data (n_mo h)) (seq 0 (Z.to_nat (n_mo h))) = Ok vols
      ∧ grid_values <$> grids = astype32 <$> vols.
Proof.
  unfold grids_with. intros H. inv_bind H. inv_bind H. inv_bind H.
  destruct (make_grids_Ok _ _ _ _ _ _ H) as (Hn & vols & Hv & Hg).
  split; [done|]. eauto.
Qed.

Lemma read_vdb_grids_Ok fs filepath scale naming_mode force_grid_name grids :
  read_vdb_grids fs filepath scale naming_mode force_grid_name = Ok grids →
  ∃ content h payload,
    fs_open fs filepath = Some content
    ∧ read_header true (lines_of content) = Ok (h, payload)
    ∧ grids_of h payload scale naming_mode force_grid_name = Ok grids.
Proof.
  unfold read_vdb_grids. intros H. inv_bind H. inv_bind H.
  destruct a0 as [h payload]. exists a, h, payload.
  destruct (fs_open fs filepath); [|discriminate]. injection Ha as ->. done.
Qed.

Lemma read_vdb_grids_fields fs filepath scale naming_mode force_grid_name grids content :
  fs_open fs filepath = Some content →
  read_vdb_grids fs filepath scale naming_mode force_grid_name = Ok grids →
  scalar_fields content = Ok (grid_values <$> grids).
Proof.
  intros Hopen H.
  destruct (read_vdb_grids_Ok _ _ _ _ _ _ H) as (c & h & payload & Hc & Hh & Hg).
  rewrite Hopen in Hc. injection Hc as <-.
  destruct (grids_with_Ok _ _ _ _ _ Hg) as (_ & data & vols & Hd & Hv & Hval).
  unfold scalar_fields. rewrite Hh. simpl. rewrite Hd. simpl. rewrite Hv. simpl.
  by rewrite Hval.
Qed.

End Grids.

(** ** C9: the fields are a function of the file contents *)

(** C9. Reading the same file contents twice gives the same outcome, and the
    same field contents bit for bit; the field contents depend on the file
    contents alone: two readings of files with equal contents that both
    succeed agree on every field, whatever the scale, the naming mode, the
    forced name and the rest of the file system. *)
Theorem C9_fields_determined_by_contents `{RT : Runtime}
    (fs1 fs2 : filesystem) (path1 path2 content : string) :
  fs_open fs1 path1 = Some content →
  fs_open fs2 path2 = Some content →
  (∀ scale naming_mode force_grid_name,
     read_vdb_grids fs1 path1 scale naming_mode force_grid_name
     = read_vdb_grids fs2 path2 scale naming_mode force_grid_name)
  ∧ (∀ scale1 mode1 force1 scale2 mode2 force2 grids1 grids2,
       read_vdb_grids fs1 path1 scale1 mode1 force1 = Ok grids1 →
       read_vdb_grids fs2 path2 scale2 mode2 force2 = Ok grids2 →
       grid_values <$> grids1 = grid_values <$> grids2
       ∧ scalar_fields content = Ok (grid_values <$> grids1)).
Proof.
  intros Ho1 Ho2. split.
  - intros. unfold read_vdb_grids. by rewrite Ho1, Ho2.
  - intros scale1 mode1 force1 scale2 mode2 force2 grids1 grids2 Hr1 Hr2.
    pose proof (read_vdb_grids_fields _ _ _ _ _ _ _ Ho1 Hr1) as Hf1.
    pose proof (read_vdb_grids_fields _ _ _ _ _ _ _ Ho2 Hr2) as Hf2.
    split; [congruence|done].
Qed.

(** The file [density_2x2x2] read in two directories, under two names, two
    scales and two naming set-ups. *)
Lemma C9_fields_determined_by_contents_witness :
  let fs1 := Examples.dir [("a.cub", Examples.density_2x2x2)] in
  let fs2 := Examples.dir [("x.cub", ""); ("b7.cub", Examples.density_2x2x2)] in
  ∃ grids1 grids2,
    read_vdb_grids (RT := SpecRuntime) fs1 "/d/a.cub"
      (Examples.fl "1") "MO_INDICES" None = Ok grids1
    ∧ read_vdb_grids (RT := SpecRuntime) fs2 "/d/b7.cub"
        (Examples.fl "2.5") "SEQUENTIAL" (Some "7") = Ok grids2
    ∧ grid_values <$> grids1 = grid_values <$> grids2.
Proof.
  intros fs1 fs2.
  destruct (read_vdb_grids (RT := SpecRuntime) fs1 "/d/a.cub"
              (Examples.fl "1") "MO_INDICES" None) as [grids1| |] eqn:H1;
    [|vm_compute in H1; discriminate..].
  destruct (read_vdb_grids (RT := SpecRuntime) fs2 "/d/b7.cub"
              (Examples.fl "2.5") "SEQUENTIAL" (Some "7")) as [grids2| |] eqn:H2;
    [|vm_compute in H2; discriminate..].
  exists grids1, grids2. split; [done|]. split; [done|].
  assert (Ho1 : fs_open fs1 "/d/a.cub" = Some Examples.density_2x2x2)
    by (vm_compute; reflexivity).
  assert (Ho2 : fs_open fs2 "/d/b7.cub" = Some Examples.density_2x2x2)
    by (vm_compute; reflexivity).
  destruct (C9_fields_determined_by_contents (RT := SpecRuntime)
              fs1 fs2 "/d/a.cub" "/d/b7.cub" Examples.density_2x2x2 Ho1 Ho2)
    as [_ Hsame].
  exact (proj1 (Hsame _ _ _ _ _ _ _ _ H1 H2)).
Defined.

(** ** C4: the names of the grids *)

(** C4. In [read_vdb_grids] the grid of field [m] is named as follows: with a
    forced base name, the base name for a single field and [base_{m+1}] for
    several; else "Density" for single-field framing; else, with naming mode
    "MO_INDICES" and a non-empty index list, the m-th declared index, printed
    without prefix; else [m+1], printed.  These are the names of the grids the
    reader returns.  The add-on's [load_cube] has no forced name and
    prefixes the two orbital names with "MO_". *)
Theorem C4_grid_names :
  (∀ base mode multi F idx m,
     1 < F → name_of (Some base) mode multi F idx m
             = Ok (base +:+ "_" +:+ py_str (Z.of_nat m + 1)))
  ∧ (∀ base mode multi idx m, name_of (Some base) mode multi 1 idx m = Ok base)
  ∧ (∀ mode F idx m, name_of None mode false F idx m = Ok "Density")
  ∧ (∀ F idx m i,
       idx !! m = Some i → name_of None "MO_INDICES" true F idx m = Ok (py_str i))
  ∧ (∀ mode F idx m,
       mode ≠ "MO_INDICES" ∨ idx = [] →
       name_of None mode true F idx m = Ok (py_str (Z.of_nat m + 1)))
  ∧ (∀ (RT : Runtime) fs filepath scale mode force grids,
       read_vdb_grids fs filepath scale mode force = Ok grids →
       ∃ content h payload,
         fs_open fs filepath = Some content
         ∧ read_header true (lines_of content) = Ok (h, payload)
         ∧ Z.of_nat (length grids) = Z.max 0 (n_mo h)
         ∧ ∀ m g, grids !! m = Some g →
             name_of force mode (is_multi_mo h) (n_mo h) (mo_indices h) m
             = Ok (grid_name g))
  ∧ (∀ mode idx m, Addon.name_of mode false idx m = Ok "Density")
  ∧ (∀ idx m i,
       idx !! m = Some i →
       Addon.name_of "MO_INDICES" true idx m = Ok ("MO_" +:+ py_str i))
  ∧ (∀ mode idx m,
       mode ≠ "MO_INDICES" ∨ idx = [] →
       Addon.name_of mode true idx m = Ok ("MO_" +:+ py_str (Z.of_nat m + 1))).
Proof.
  repeat apply conj.
  - intros base mode multi F idx m HF. unfold name_of.
    by destruct (Z.ltb_spec 1 F); [|lia].
  - intros. reflexivity.
  - intros. reflexivity.
  - intros F idx m i Hi. unfold name_of.
    rewrite bool_decide_true by done.
    rewrite (bool_decide_false (idx = [])) by (by intros ->).
    simpl. by rewrite Hi.
  - intros mode F idx m [Hmode| ->]; unfold name_of.
    + by rewrite (bool_decide_false _ Hmode).
    + rewrite (bool_decide_true ([] = [])) by done. simpl.
      by rewrite andb_false_r.
  - intros RT fs filepath scale mode force grids H.
    destruct (read_vdb_grids_Ok _ _ _ _ _ _ H) as (content & h & payload & Hc & Hh & Hg).
    exists content, h, payload. split; [done|]. split; [done|].
    destruct (grids_with_Ok _ _ _ _ _ Hg) as (Hnames & _).
    split.
    + apply Forall2_length in Hnames. rewrite length_seq in Hnames. lia.
    + intros m g Hm.
      destruct (Forall2_lookup_r _ _ _ m g Hnames Hm) as (m' & Hm' & Hname).
      apply lookup_seq in Hm' as [-> _]. exact Hname.
  - intros. reflexivity.
  - intros idx m i Hi. unfold Addon.name_of.
    rewrite bool_decide_true by done.
    rewrite (bool_decide_false (idx = [])) by (by intros ->).
    simpl. by rewrite Hi.
  - intros mode idx m [Hmode| ->]; unfold Addon.name_of.
    + by rewrite (bool_decide_false _ Hmode).
    + rewrite (bool_decide_true ([] = [])) by done. simpl.
      by rewrite andb_false_r.
Qed.

(** The orbitals 5 and 7 of [two_orbitals]: "5" and "7" from
    [read_vdb_grids], with the declared indices [5; 7]. *)
Lemma C4_grid_names_witness :
  name_of None "MO_INDICES" true 2 [5; 7] 1 = Ok (py_str 7)
  ∧ Addon.name_of "MO_INDICES" true [5; 7] 1 = Ok ("MO_" +:+ py_str 7)
  ∧ name_of (Some "3") "MO_INDICES" true 2 [5; 7] 1 = Ok "3_2".
Proof.
  destruct C4_grid_names as (Hforced & _ & _ & Hidx & _ & _ & _ & Haddon & _).
  split; [apply Hidx; reflexivity|].
  split; [apply Haddon; reflexivity|].
  apply (Hforced "3" "MO_INDICES" true 2 [5; 7] 1%nat). lia.
Defined.

(** On the file [two_orbitals] the add-on names the grids "MO_5" and
    "MO_7", not "5" and "7". *)
Lemma C4_addon_prefix_counterexample :
  ∃ grids,
    Addon.load_cube (RT := SpecRuntime)
      (Examples.dir [("a.cub", Examples.two_orbitals)]) "/d/a.cub"
      (Examples.fl "1") "MO_INDICES"
    = ([VdbWrite "/d/a.vdb" grids], Ok tt)
    ∧ grid_name <$> grids = ["MO_5"; "MO_7"]
    ∧ grid_name <$> grids ≠ [py_str 5; py_str 7].
Proof.
  destruct (Addon.load_cube (RT := SpecRuntime)
              (Examples.dir [("a.cub", Examples.two_orbitals)]) "/d/a.cub"
              (Examples.fl "1") "MO_INDICES") as [evs out] eqn:H.
  vm_compute in H. injection H as <- <-.
  eexists. split; [reflexivity|]. split; [reflexivity|].
  vm_compute. discriminate.
Qed.

(** ** C5: the batch *)

Section Batch.
Context `{RT : Runtime}.


End Batch.

(** The one way in which the reader does not return: the orbital header
    asks for more indices than the rest of the file holds. *)
Example orbital_indices_missing :
  read_vdb_grids (RT := SpecRuntime)
    (Examples.dir [("m.cub", Examples.missing_indices)]) "/d/m.cub"
    (Examples.fl "1") "MO_INDICES" None
  = Diverge.
Proof. vm_compute. reflexivity. Qed.



(** ** C10: the name of the output file *)

(** C10. With sequence mode off, and with sequence mode on when the file name
    has no run of digits before its extension, the output file is the input
    path with its extension replaced by ".vdb".  With sequence mode on and
    such a run of digits, the output file is [{prefix}all.vdb] (with "_"
    added to a prefix that ends neither in "_" nor in ".") in the directory
    of the input, whether or not the directory listing holds a matching
    file.  The writer is called with that name; the add-on always uses the
    input path with the extension replaced. *)
Theorem C10_output_name `{RT : Runtime} (fs : filesystem) (filepath : string) :
  let replaced := (splitext filepath).1 +:+ ".vdb" in
  sequence_plan fs filepath false = Ok ([(filepath, None)], replaced)
  ∧ (re_search (basename filepath) = None →
     sequence_plan fs filepath true = Ok ([(filepath, None)], replaced))
  ∧ (∀ prefix digits suffix plan out,
       re_search (basename filepath) = Some (prefix, digits, suffix) →
       sequence_plan fs filepath true = Ok (plan, out) →
       out = join (dirname filepath)
               ((if negb (ends_with_char "_" prefix) && negb (ends_with_char "." prefix)
                 then prefix +:+ "_" else prefix) +:+ "all.vdb"))
  ∧ (∀ scale mode import_sequence name grids,
       VdbWrite name grids ∈ (load_cube fs filepath scale mode import_sequence).1 →
       ∃ plan, sequence_plan fs filepath import_sequence = Ok (plan, name))
  ∧ (∀ scale mode name grids,
       VdbWrite name grids ∈ (Addon.load_cube fs filepath scale mode).1 →
       name = replaced).
Proof.
  intros replaced. repeat apply conj.
  - reflexivity.
  - intros Hnone. unfold sequence_plan. by rewrite Hnone.
  - intros prefix digits suffix plan out Hsome Hplan.
    unfold sequence_plan in Hplan. rewrite Hsome in Hplan.
    inv_bind Hplan. inv_bind Hplan.
    destruct (negb (bool_decide (sort_by snd a0 = []))); by injection Hplan as _ <-.
  - intros scale mode import_sequence name grids Hin. unfold load_cube in Hin.
    destruct (sequence_plan fs filepath import_sequence) as [[plan out]| |];
      simpl in Hin; [|by apply elem_of_nil in Hin..].
    unfold write_batch in Hin.
    destruct (read_all fs plan scale mode) as [all_grids| |];
      simpl in Hin; [|by apply elem_of_nil in Hin..].
    destruct (bool_decide (all_grids = [])); simpl in Hin;
      [by apply elem_of_nil in Hin|].
    apply list_elem_of_singleton in Hin. injection Hin as -> _. by exists plan.
  - intros scale mode name grids Hin. unfold Addon.load_cube in Hin.
    match type of Hin with context [match ?r with _ => _ end] => destruct r end;
      simpl in Hin; [|by apply elem_of_nil in Hin..].
    apply list_elem_of_singleton in Hin. by injection Hin as -> _.
Qed.

(** [/d/a2.cub] in a directory that lists it: the output is [/d/a_all.vdb]. *)
Lemma C10_output_name_witness :
  ∃ plan,
    sequence_plan (Examples.dir [("a2.cub", "")]) "/d/a2.cub" true
    = Ok (plan, "/d/a_all.vdb").
Proof.
  destruct (sequence_plan (Examples.dir [("a2.cub", "")]) "/d/a2.cub" true)
    as [[plan out]| |] eqn:Hplan; [|vm_compute in Hplan; discriminate..].
  destruct (C10_output_name (RT := SpecRuntime) (Examples.dir [("a2.cub", "")]) "/d/a2.cub")
    as (_ & _ & Hseq & _).
  rewrite (Hseq "a" "2" ".cub" plan out eq_refl Hplan).
  exists plan. vm_compute. reflexivity.
Defined.

(** A file system that finds [/d/A1.CUB] but lists the file as [a1.cub] (names
    compared without case): no listed name matches, the single file is read
    and written to [/d/A_all.vdb], not to [/d/A1.vdb]. *)
Lemma C10_no_sibling_counterexample :
  let fs :=
    FileSystem
      (fun path => if bool_decide (path = "/d/A1.CUB") then Some Examples.density_2x2x2
                   else None)
      (fun d => if bool_decide (d = "/d") then Some ["a1.cub"] else None) in
  scan_files "/d" "A" ".CUB" ["a1.cub"] = Ok []
  ∧ sequence_plan fs "/d/A1.CUB" true = Ok ([("/d/A1.CUB", None)], "/d/A_all.vdb")
  ∧ (splitext "/d/A1.CUB").1 +:+ ".vdb" = "/d/A1.vdb"
  ∧ ∃ grids,
      load_cube (RT := SpecRuntime) fs "/d/A1.CUB" (Examples.fl "1") "MO_INDICES" true
      = ([VdbWrite "/d/A_all.vdb" grids], Ok tt).
Proof.
  intros fs. repeat apply conj; try (vm_compute; reflexivity).
  destruct (load_cube (RT := SpecRuntime) fs "/d/A1.CUB" (Examples.fl "1")
              "MO_INDICES" true) as [evs out] eqn:H.
  vm_compute in H. injection H as <- <-. eexists. reflexivity.
Qed.

(** ** Decimal numerals *)

Lemma pretty_N_char_digit (d : N) :
  (d < 10)%N →
  is_digit (pretty_N_char d) = true
  ∧ digit_value (pretty_N_char d) = Z.of_N d
  ∧ (d ≠ 0%N → pretty_N_char d ≠ "0"%char).
Proof.
  intros Hd.
  assert (d = 0 ∨ d = 1 ∨ d = 2 ∨ d = 3 ∨ d = 4 ∨ d = 5
          ∨ d = 6 ∨ d = 7 ∨ d = 8 ∨ d = 9)%N as Hcases by lia.
  repeat (destruct Hcases as [->|Hcases]); try subst d;
    (split; [reflexivity|split; [reflexivity|intros ?; try done; discriminate]]).
Qed.

Lemma all_digits_app (s t : string) :
  all_digits (s +:+ t) = all_digits s && all_digits t.
Proof. induction s as [|c s IH]; simpl; [done|]. by rewrite IH, andb_assoc. Qed.

Lemma string_app_cons (c : ascii) (s t : string) :
  String c s +:+ t = String c (s +:+ t).
Proof. reflexivity. Qed.

Lemma string_app_nil_l (t : string) : "" +:+ t = t.
Proof. reflexivity. Qed.

Lemma string_app_assoc (s t u : string) : (s +:+ t) +:+ u = s +:+ (t +:+ u).
Proof.
  induction s as [|c s IH]; [done|]. by rewrite !string_app_cons, IH.
Qed.

Lemma string_app_length (s t : string) :
  String.length (s +:+ t) = (String.length s + String.length t)%nat.
Proof.
  induction s as [|c s IH]; [done|]. rewrite string_app_cons. simpl. by rewrite IH.
Qed.

Lemma string_app_empty (s : string) : s +:+ "" = s.
Proof.
  induction s as [|c s IH]; [done|]. by rewrite string_app_cons, IH.
Qed.

(** The numeral [pretty_N_go x s] puts before [s]: digits, the first of them
    not a zero, which [int] reads back as [x]. *)
Lemma pretty_N_go_numeral (x : N) (s : string) :
  (0 < x)%N →
  ∃ c ds,
    pretty_N_go x s = String c ds +:+ s
    ∧ c ≠ "0"%char
    ∧ all_digits (String c ds) = true
    ∧ ∀ seen acc,
        digits_go seen acc (String c ds +:+ s)
        = digits_go true (acc * 10 ^ Z.of_nat (String.length (String c ds)) + Z.of_N x) s.
Proof.
  revert s. induction (N.lt_wf_0 x) as [x _ IH]. intros s Hx.
  rewrite pretty_N_go_step by done.
  destruct (pretty_N_char_digit (x `mod` 10)%N) as (Hdig & Hval & Hnz);
    [by apply N.mod_lt|].
  set (c := pretty_N_char (x `mod` 10)%N) in *.
  pose proof (N.div_mod x 10 ltac:(done)) as Hdm.
  destruct (decide (x `div` 10 = 0)%N) as [Hz|Hnz'].
  - rewrite Hz, pretty_N_go_0. exists c, "". simpl.
    assert (x `mod` 10 = x)%N as Hmod by lia.
    split; [done|]. split; [apply Hnz; lia|]. split; [by rewrite Hdig|].
    intros seen acc. rewrite Hdig, Hval, Hmod. f_equal; lia.
  - destruct (IH (x `div` 10)%N) with (s := String c s) as (c' & ds' & Heq & Hc' & Hall & Hread).
    { apply N.div_lt; lia. }
    { by apply N.neq_0_lt_0. }
    exists c', (ds' +:+ String c ""). rewrite Heq.
    assert (Hs : String c' (ds' +:+ String c "") +:+ s = String c' ds' +:+ String c s).
    { by rewrite <- (string_app_cons c' ds' (String c "")), string_app_assoc. }
    rewrite Hs. split; [done|]. split; [done|]. split.
    { rewrite <- string_app_cons, all_digits_app, Hall. simpl. by rewrite Hdig. }
    intros seen acc. rewrite Hread. cbn [digits_go]. rewrite Hdig, Hval. f_equal.
    rewrite <- (string_app_cons c' ds' (String c "")), string_app_length.
    cbn [String.length].
    replace (Z.of_nat (S (String.length ds') + 1))
      with (Z.of_nat (S (String.length ds')) + 1) by lia.
    rewrite Z.pow_add_r by lia.
    rewrite N2Z.inj_div in *. rewrite N2Z.inj_mod in *.
    pose proof (Z.div_mod (Z.of_N x) 10 ltac:(done)). simpl (Z.of_N 10) in *. lia.
Qed.

Lemma py_str_numeral (v : Z) :
  0 ≤ v →
  all_digits (py_str v) = true
  ∧ py_str v ≠ ""
  ∧ no_leading_zero (py_str v)
  ∧ py_int (py_str v) = Some v.
Proof.
  intros Hv. destruct v as [|p|p]; [| |lia].
  - repeat split; try done. by left.
  - unfold py_str, pretty, pretty_Z, pretty, pretty_positive, pretty, pretty_N.
    rewrite decide_False by done.
    destruct (pretty_N_go_numeral (N.pos p) "") as (c & ds & Heq & Hc & Hall & Hread);
      [lia|].
    rewrite Heq. rewrite string_app_empty in *.
    split; [done|]. split; [done|]. split; [right; eauto|].
    unfold py_int.
    assert (Hplain : digits_go false 0 (String c ds) = Some (Z.pos p)).
    { rewrite (Hread false 0). simpl. f_equal; lia. }
    simpl in Hall. apply andb_prop in Hall as [Hcd _].
    destruct c as [[] [] [] [] [] [] [] []]; try discriminate Hcd; exact Hplain.
Qed.

Lemma digits_go_all_digits (s : string) (seen : bool) (acc : Z) :
  all_digits s = true → s ≠ "" ∨ seen = true → 0 ≤ acc →
  ∃ v, digits_go seen acc s = Some v ∧ 0 ≤ v.
Proof.
  revert seen acc. induction s as [|c s IH]; simpl; intros seen acc Hall Hne Hacc.
  - destruct Hne as [?| ->]; [done|]. eauto.
  - apply andb_prop in Hall as [Hc Hall]. rewrite Hc.
    apply IH; [done|by right|].
    unfold digit_value. unfold is_digit in Hc.
    apply andb_prop in Hc as [Hlo _]. apply Nat.leb_le in Hlo. lia.
Qed.

Lemma py_int_all_digits (s : string) :
  all_digits s = true → s ≠ "" → ∃ v, py_int s = Some v ∧ 0 ≤ v.
Proof.
  intros Hall Hne. destruct s as [|c s]; [done|].
  destruct (digits_go_all_digits (String c s) false 0 Hall (or_introl Hne)) as (v & Hv & Hpos);
    [lia|].
  exists v. split; [|done]. unfold py_int.
  simpl in Hall. apply andb_prop in Hall as [Hcd _].
  destruct c as [[] [] [] [] [] [] [] []]; try discriminate Hcd; exact Hv.
Qed.

(** ** The stable sort *)

Section Sort.
Context {A : Type} (key : A → Z).

Lemma insert_by_perm (x : A) (l : list A) : insert_by key x l ≡ₚ x :: l.
Proof.
  induction l as [|y l IH]; simpl; [done|].
  destruct (key x <=? key y); [done|].
  rewrite IH. apply Permutation_swap.
Qed.

Lemma sort_by_perm (l : list A) : sort_by key l ≡ₚ l.
Proof.
  induction l as [|x l IH]; simpl; [done|].
  fold (sort_by key l). by rewrite insert_by_perm, IH.
Qed.

Lemma insert_by_sorted (x : A) (l : list A) :
  StronglySorted (fun a b => key a ≤ key b) l →
  StronglySorted (fun a b => key a ≤ key b) (insert_by key x l).
Proof.
  induction 1 as [|y l Hl IH Hy]; simpl; [repeat constructor|].
  destruct (Z.leb_spec (key x) (key y)) as [Hle|Hgt].
  - constructor; [by constructor|].
    constructor; [done|]. eapply Forall_impl; [exact Hy|]. simpl. lia.
  - constructor; [done|].
    rewrite insert_by_perm. constructor; [lia|done].
Qed.

Lemma sort_by_sorted (l : list A) :
  StronglySorted (fun a b => key a ≤ key b) (sort_by key l).
Proof.
  induction l as [|x l IH]; simpl; [constructor|].
  by apply insert_by_sorted.
Qed.

End Sort.

Lemma sort_by_fmap {A B : Type} (key : A → Z) (key' : B → Z) (g : A → B) (l : list A) :
  (∀ x, key' (g x) = key x) →
  sort_by key' (g <$> l) = g <$> sort_by key l.
Proof.
  intros Hkey. induction l as [|x l IH]; [done|].
  rewrite fmap_cons. simpl. fold (sort_by key' (g <$> l)). fold (sort_by key l).
  rewrite IH. generalize (sort_by key l). intros m.
  induction m as [|y m IHm]; [done|].
  rewrite fmap_cons. simpl. rewrite !Hkey.
  destruct (key x <=? key y); [done|]. by rewrite IHm.
Qed.

(** ** The two patterns *)

Lemma span_digits_spec (s d t : string) :
  span_digits s = (d, t) → all_digits d = true ∧ s = d +:+ t.
Proof.
  revert d t. induction s as [|c s IH]; simpl; intros d t H.
  - by injection H as <- <-.
  - destruct (is_digit c) eqn:Hc.
    + destruct (span_digits s) as [d' t'] eqn:Hs. injection H as <- <-.
      destruct (IH d' t' eq_refl) as [Hd ->]. simpl. by rewrite Hc, Hd.
    + by injection H as <- <-.
Qed.

Lemma pattern_match_digits (prefix suffix f ds : string) :
  pattern_match prefix suffix f = Some ds → all_digits ds = true ∧ ds ≠ "".
Proof.
  unfold pattern_match. intros H.
  destruct (strip_prefix prefix f) as [rest|]; [|done].
  destruct (span_digits rest) as [d t] eqn:Hs.
  destruct (span_digits_spec _ _ _ Hs) as [Hd _].
  destruct (bool_decide (d = "")) eqn:He; simpl in H; [done|].
  apply bool_decide_eq_false in He.
  destruct (_ || _); [|done]. by injection H as <-.
Qed.

Lemma matched_files_elem (prefix suffix : string) (all_files : list string) x :
  x ∈ matched_files prefix suffix all_files ↔
  x.1.1 ∈ all_files
  ∧ pattern_match prefix suffix x.1.1 = Some x.1.2
  ∧ py_int x.1.2 = Some x.2.
Proof.
  unfold matched_files. rewrite list_elem_of_omap. split.
  - intros (f & Hf & Hx).
    destruct (pattern_match prefix suffix f) as [ds|] eqn:Hm; [|done]. simpl in Hx.
    destruct (py_int ds) as [v|] eqn:Hv; [|done]. simpl in Hx.
    injection Hx as <-. done.
  - destruct x as [[f ds] v]. simpl. intros (Hf & Hm & Hv).
    exists f. split; [done|]. rewrite Hm. simpl. by rewrite Hv.
Qed.

Lemma scan_files_spec (base_dir prefix suffix : string) (all_files : list string) :
  scan_files base_dir prefix suffix all_files
  = Ok ((fun x => (join base_dir x.1.1, py_str x.2, x.2))
          <$> matched_files prefix suffix all_files).
Proof.
  induction all_files as [|f files IH]; [done|].
  unfold matched_files in *. simpl.
  destruct (pattern_match prefix suffix f) as [ds|] eqn:Hm; simpl; [|done].
  destruct (pattern_match_digits _ _ _ _ Hm) as [Hall Hne].
  destruct (py_int_all_digits ds Hall Hne) as (v & Hv & _).
  unfold int_token. rewrite Hv. simpl. by rewrite IH.
Qed.

(** ** C3: the order and the names of a sequence *)

(** C3. When the file name has a run of digits before its extension and the
    directory lists at least one name of the pattern, the plan holds exactly
    the listed names of the pattern, in ascending order of the integers their
    runs of digits denote; the name override of each is that integer printed,
    without superfluous zeros, and it reads back as the same integer.  For
    the listing [a2.cub, a010.cub, a001.cub] the plan is [a001.cub] as "1",
    [a2.cub] as "2", [a010.cub] as "10". *)
Theorem C3_sequence_order :
  (∀ (fs : filesystem) (filepath prefix digits suffix : string)
     (all_files : list string),
     re_search (basename filepath) = Some (prefix, digits, suffix) →
     fs_listdir fs (dirname filepath) = Some all_files →
     (∃ f, f ∈ all_files ∧ is_Some (pattern_match prefix suffix f)) →
     ∃ (sorted : list (string * string * Z)) out,
       sequence_plan fs filepath true
       = Ok ((fun x => (join (dirname filepath) x.1.1, Some (py_str x.2))) <$> sorted, out)
       ∧ sorted ≡ₚ matched_files prefix suffix all_files
       ∧ StronglySorted (fun x y => x.2 ≤ y.2) sorted
       ∧ (∀ f, f ∈ all_files → is_Some (pattern_match prefix suffix f) →
            ∃ ds v, (f, ds, v) ∈ sorted)
       ∧ Forall (fun x =>
                   x.1.1 ∈ all_files
                   ∧ pattern_match prefix suffix x.1.1 = Some x.1.2
                   ∧ py_int x.1.2 = Some x.2
                   ∧ py_int (py_str x.2) = Some x.2
                   ∧ no_leading_zero (py_str x.2)) sorted)
  ∧ sequence_plan
      (Examples.dir [("a2.cub", ""); ("a010.cub", ""); ("a001.cub", "")])
      "/d/a2.cub" true
    = Ok ([("/d/a001.cub", Some "1"); ("/d/a2.cub", Some "2"); ("/d/a010.cub", Some "10")],
          "/d/a_all.vdb").
Proof.
  split; [|vm_compute; reflexivity].
  intros fs filepath prefix digits suffix all_files Hre Hls (f0 & Hf0 & [ds0 Hm0]).
  set (matched := matched_files prefix suffix all_files).
  set (sorted := sort_by snd matched).
  assert (Hin : ∀ f, f ∈ all_files → is_Some (pattern_match prefix suffix f) →
                     ∃ ds v, (f, ds, v) ∈ matched ∧ 0 ≤ v).
  { intros f Hf [ds Hm].
    destruct (pattern_match_digits _ _ _ _ Hm) as [Hall Hne].
    destruct (py_int_all_digits ds Hall Hne) as (v & Hv & Hpos).
    exists ds, v. split; [|done]. by apply matched_files_elem. }
  assert (Hperm : sorted ≡ₚ matched) by apply sort_by_perm.
  assert (Hne : sorted ≠ []).
  { destruct (Hin f0 Hf0 (ex_intro _ ds0 Hm0)) as (ds & v & Hel & _).
    rewrite <- Hperm in Hel. intros Hnil. rewrite Hnil in Hel.
    by apply elem_of_nil in Hel. }
  eexists sorted, _. split.
  { unfold sequence_plan. rewrite Hre, Hls. simpl.
    rewrite scan_files_spec. simpl. fold matched.
    rewrite (sort_by_fmap snd snd) by done. fold sorted.
    rewrite bool_decide_false.
    - simpl. rewrite <- list_fmap_compose. reflexivity.
    - intros Hnil. apply fmap_nil_inv in Hnil. done. }
  split; [done|]. split; [apply sort_by_sorted|]. split.
  - intros f Hf Hm. destruct (Hin f Hf Hm) as (ds & v & Hel & _).
    exists ds, v. by rewrite Hperm.
  - apply Forall_forall. intros x Hx. rewrite Hperm in Hx.
    apply matched_files_elem in Hx as (Hf & Hm & Hv).
    destruct (pattern_match_digits _ _ _ _ Hm) as [Hall Hnem].
    destruct (py_int_all_digits _ Hall Hnem) as (v & Hv' & Hpos).
    assert (v = x.2) as -> by congruence.
    destruct (py_str_numeral _ Hpos) as (_ & _ & Hlead & Hback).
    done.
Qed.

(** The listing [a2.cub, a010.cub, a001.cub, b1.cub] of [/d]. *)
Lemma C3_sequence_order_witness :
  ∃ (sorted : list (string * string * Z)) out,
    sequence_plan
      (Examples.dir [("a2.cub", ""); ("a010.cub", ""); ("a001.cub", ""); ("b1.cub", "")])
      "/d/a2.cub" true
    = Ok ((fun x => (join "/d" x.1.1, Some (py_str x.2))) <$> sorted, out)
    ∧ sorted ≡ₚ [("a2.cub", "2", 2); ("a010.cub", "010", 10); ("a001.cub", "001", 1)]
    ∧ StronglySorted (fun x y => x.2 ≤ y.2) sorted.
Proof.
  destruct C3_sequence_order as [Hgen _].
  destruct (Hgen
              (Examples.dir [("a2.cub", ""); ("a010.cub", ""); ("a001.cub", ""); ("b1.cub", "")])
              "/d/a2.cub" "a" "2" ".cub" ["a2.cub"; "a010.cub"; "a001.cub"; "b1.cub"]
              eq_refl eq_refl)
    as (sorted & out & Hplan & Hperm & Hsorted & _).
  { exists "a2.cub". split; [by left|]. by exists "2". }
  exists sorted, out. split; [exact Hplan|]. split; [exact Hperm|exact Hsorted].
Defined.

(** ** C7: a file that ends inside its atom block *)

Section Truncated.
Context `{RT : Runtime}.

Lemma count_and_vector_nonempty (line : list string) (r : Z * list float) :
  count_and_vector line = Ok r → line ≠ [].
Proof. intros H ->. discriminate H. Qed.

Lemma reconcile_nothing (expected_len : Z) :
  0 ≤ expected_len →
  reconcile [] expected_len = replicate (Z.to_nat expected_len) fzero.
Proof.
  intros He. rewrite reconcile_spec by done. rewrite take_nil, app_nil_l.
  f_equal. simpl. lia.
Qed.

End Truncated.

(** C7. Let the six header lines of a file be well formed and let the file
    end before all [|atom_count|] atom lines.  With a negative atom count
    (several fields) reading fails: the line of the field count is read as
    empty and [IndexError] is raised, so no field is produced.  With an atom
    count that is not negative, nothing is raised by the header: the missing
    lines read as empty, the payload is empty, and for voxel counts that are
    not negative the decoder returns [n1*n2*n3] zeros. *)
Theorem C7_truncated_atom_block `{RT : Runtime} (guard : bool)
    (t1 t2 l3 l4 l5 l6 : string) (atoms : list string)
    (a : Z) (o : list float) (c1 c2 c3 : Z) (b1 b2 b3 : list float) :
  count_and_vector (split l3) = Ok (a, o) →
  count_and_vector (split l4) = Ok (c1, b1) →
  count_and_vector (split l5) = Ok (c2, b2) →
  count_and_vector (split l6) = Ok (c3, b3) →
  Z.of_nat (length atoms) < Z.abs a →
  let f := t1 :: t2 :: l3 :: l4 :: l5 :: l6 :: atoms in
  (a < 0 →
     read_header guard f = Raise IndexError
     ∧ ∀ fs path content scale mode force,
         fs_open fs path = Some content → lines_of content = f →
         read_vdb_grids fs path scale mode force = Raise IndexError)
  ∧ (0 ≤ a →
     read_header guard f = Ok (Header false o c1 b1 c2 b2 c3 b3 1 [], "")
     ∧ (0 ≤ c1 → 0 ≤ c2 → 0 ≤ c3 →
        decode_payload "" c1 c2 c3 1
        = Ok (NdArray [c1; c2; c3] (replicate (Z.to_nat (c1 * c2 * c3)) fzero)))).
Proof.
  intros H3 H4 H5 H6 Hshort f.
  assert (Hguard : guard && bool_decide (split l3 = []) = false).
  { rewrite bool_decide_false; [by destruct guard|].
    by eapply count_and_vector_nonempty. }
  split.
  - intros Hneg.
    assert (Hh : ∀ g, g && bool_decide (split l3 = []) = false →
                      read_header g f = Raise IndexError).
    { intros g Hg. unfold read_header, f. simpl. rewrite Hg, H3. simpl.
      rewrite H4. simpl. rewrite H5. simpl. rewrite H6. simpl.
      destruct (Z.ltb_spec a 0); [|lia].
      rewrite drop_ge by lia. reflexivity. }
    split; [by apply Hh|].
    intros fs path content scale mode force Hopen Hlines.
    unfold read_vdb_grids. rewrite Hopen. simpl. rewrite Hlines.
    rewrite Hh; [done|].
    rewrite bool_decide_false; [done|]. by eapply count_and_vector_nonempty.
  - intros Hpos. split.
    + unfold read_header, f. simpl. rewrite Hguard, H3. simpl.
      rewrite H4. simpl. rewrite H5. simpl. rewrite H6. simpl.
      destruct (Z.ltb_spec a 0); [lia|].
      rewrite drop_ge by lia. reflexivity.
    + intros Hc1 Hc2 Hc3. rewrite decode_payload_Ok by (done || lia).
      rewrite np_fromstring_empty, reconcile_nothing by nia.
      simpl. do 3 f_equal. lia.
Qed.

(** The file [truncated_density]: one atom declared, none present. *)
Lemma C7_truncated_atom_block_witness :
  read_header (RT := SpecRuntime) true (lines_of Examples.truncated_density)
  = Ok (Header false (Examples.fl <$> ["0.0"; "0.0"; "0.0"])
          2 (Examples.fl <$> ["1.0"; "0.0"; "0.0"])
          2 (Examples.fl <$> ["0.0"; "1.0"; "0.0"])
          2 (Examples.fl <$> ["0.0"; "0.0"; "1.0"]) 1 [], "").
Proof.
  set (ls := lines_of Examples.truncated_density).
  vm_compute in ls.
  match eval unfold ls in ls with
  | [?t1; ?t2; ?l3; ?l4; ?l5; ?l6] =>
      destruct (C7_truncated_atom_block (RT := SpecRuntime) true t1 t2 l3 l4 l5 l6 []
                  1 (Examples.fl <$> ["0.0"; "0.0"; "0.0"])
                  2 2 2
                  (Examples.fl <$> ["1.0"; "0.0"; "0.0"])
                  (Examples.fl <$> ["0.0"; "1.0"; "0.0"])
                  (Examples.fl <$> ["0.0"; "0.0"; "1.0"])) as [_ Hsingle];
        [vm_compute; reflexivity..|simpl; lia|]
  end.
  destruct Hsingle as [Hh _]; [lia|]. exact Hh.
Defined.

(** The truncated single-field file is read without any error and yields
    the field "Density" of eight zeros. *)
Lemma C7_truncated_density_counterexample :
  declared_atom_count (lines_of Examples.truncated_density) = Some 1
  ∧ length (lines_of Examples.truncated_density) = 6%nat
  ∧ read_vdb_grids (RT := SpecRuntime)
      (Examples.dir [("t.cub", Examples.truncated_density)]) "/d/t.cub"
      (Examples.fl "1") "MO_INDICES" None
    = Ok [Grid "Density" (NdArray [2; 2; 2] (replicate 8 (S754_zero false)))
            (identity4 (RT := SpecRuntime)) FOG_VOLUME].
Proof. repeat apply conj; vm_compute; reflexivity. Qed.

(** ** C8: distinct names *)

Section Names.
Context `{RT : Runtime}.

(** A file without orbital header has exactly one field. *)
Lemma read_header_single guard f h payload :
  read_header guard f = Ok (h, payload) → is_multi_mo h = false → n_mo h = 1.
Proof.
  unfold read_header. intros H Hsingle.
  repeat (destruct (readline _) as [? ?] in H).
  destruct (guard && _) in H; [discriminate|].
  inv_bind H. destruct a as [n_atoms o].
  inv_bind H. destruct a as [c1 b1].
  inv_bind H. destruct a as [c2 b2].
  inv_bind H. destruct a as [c3 b3].
  inv_bind H. destruct a as [[F idx] f'].
  injection H as <- _. simpl in Hsingle. rewrite Hsingle in Ha3.
  by injection Ha3 as <- _ _.
Qed.

Lemma numeral_no_underscore (b t s : string) :
  all_digits b = true → b ≠ t +:+ "_" +:+ s.
Proof.
  intros Hb ->. by rewrite all_digits_app, andb_false_r in Hb.
Qed.

Lemma numeral_prefix_inj (b1 b2 s1 s2 : string) :
  all_digits b1 = true → all_digits b2 = true →
  b1 +:+ "_" +:+ s1 = b2 +:+ "_" +:+ s2 → b1 = b2.
Proof.
  revert b2. induction b1 as [|c b1 IH]; intros [|c' b2] H1 H2 Heq.
  - done.
  - rewrite string_app_nil_l, !string_app_cons in Heq. injection Heq as <- _.
    simpl in H2. done.
  - rewrite string_app_nil_l, !string_app_cons in Heq. injection Heq as -> _.
    simpl in H1. done.
  - rewrite !(string_app_cons _ _ ("_" +:+ _)) in Heq. injection Heq as -> Heq.
    simpl in H1, H2. apply andb_prop in H1 as [_ H1]. apply andb_prop in H2 as [_ H2].
    f_equal. by apply IH.
Qed.

(** The names under a forced base name. *)
Lemma forced_names fs path scale mode base grids g :
  read_vdb_grids fs path scale mode (Some base) = Ok grids → g ∈ grids →
  grid_name g = base ∨ ∃ k, grid_name g = base +:+ "_" +:+ py_str k.
Proof.
  intros H Hg.
  destruct (read_vdb_grids_Ok _ _ _ _ _ _ H) as (content & h & payload & _ & _ & Hgrids).
  destruct (grids_with_Ok _ _ _ _ _ Hgrids) as (Hnames & _).
  apply list_elem_of_lookup in Hg as [m Hm].
  destruct (Forall2_lookup_r _ _ _ m g Hnames Hm) as (m' & _ & Hname).
  unfold name_of in Hname.
  destruct (1 <? n_mo h); injection Hname as <-; eauto.
Qed.

(** The overrides of a plan are numerals of integers that are not negative. *)
Lemma plan_overrides fs filepath import_sequence plan out path base :
  sequence_plan fs filepath import_sequence = Ok (plan, out) →
  (path, Some base) ∈ plan →
  ∃ v, 0 ≤ v ∧ base = py_str v.
Proof.
  unfold sequence_plan. intros H Hin.
  assert (Hnone : (path, Some base) ∈ [(filepath, @None string)] → False).
  { intros Hel%list_elem_of_singleton. discriminate. }
  destruct import_sequence; [|injection H as <- _; by destruct Hnone].
  destruct (re_search (basename filepath)) as [[[prefix digits] suffix]|];
    [|injection H as <- _; by destruct Hnone].
  inv_bind H. inv_bind H. rewrite scan_files_spec in Ha0. injection Ha0 as <-.
  destruct (negb _) in H; [|injection H as <- _; by destruct Hnone].
  injection H as <- _.
  apply list_elem_of_fmap in Hin as (x & Hx & Hel). injection Hx as _ ->.
  rewrite sort_by_perm in Hel.
  apply list_elem_of_fmap in Hel as (y & -> & Hy). simpl.
  apply matched_files_elem in Hy as (_ & Hm & Hv).
  destruct (pattern_match_digits _ _ _ _ Hm) as [Hall Hne].
  destruct (py_int_all_digits _ Hall Hne) as (v & Hv' & Hpos).
  exists y.2. split; [congruence|done].
Qed.

(** Within one file: the names are pairwise distinct when the declared
    indices are. *)
Lemma names_NoDup fs path scale mode force grids content h payload :
  fs_open fs path = Some content →
  read_header true (lines_of content) = Ok (h, payload) →
  NoDup (mo_indices h) →
  read_vdb_grids fs path scale mode force = Ok grids →
  NoDup (grid_name <$> grids).
Proof.
  intros Hopen Hh Hidx H.
  destruct (read_vdb_grids_Ok _ _ _ _ _ _ H) as (content' & h' & payload' & Hc & Hh' & Hgrids).
  rewrite Hopen in Hc. injection Hc as <-. rewrite Hh in Hh'. injection Hh' as <- <-.
  destruct (grids_with_Ok _ _ _ _ _ Hgrids) as (Hnames & _).
  apply NoDup_alt. intros i j name Hi Hj.
  rewrite list_lookup_fmap in Hi, Hj.
  destruct (grids !! i) as [gi|] eqn:Hgi; [|done].
  destruct (grids !! j) as [gj|] eqn:Hgj; [|done].
  simpl in Hi, Hj. injection Hi as Hi. injection Hj as Hj.
  destruct (Forall2_lookup_r _ _ _ i gi Hnames Hgi) as (i' & Hi' & Hni).
  destruct (Forall2_lookup_r _ _ _ j gj Hnames Hgj) as (j' & Hj' & Hnj).
  apply lookup_seq in Hi' as [-> Hilt]. apply lookup_seq in Hj' as [-> Hjlt].
  simpl in Hni, Hnj. rewrite Hi in Hni. rewrite Hj in Hnj.
  unfold name_of in Hni, Hnj.
  destruct force as [base|].
  - destruct (Z.ltb_spec 1 (n_mo h)); [|lia].
    injection Hni as Hni. injection Hnj as Hnj. rewrite <- Hnj in Hni.
    apply (inj (String.app base)), (inj (String.app "_")), (inj pretty) in Hni. lia.
  - destruct (is_multi_mo h) eqn:Hmulti.
    + destruct (bool_decide (mode = "MO_INDICES") && negb (bool_decide (mo_indices h = []))).
      * inv_bind Hni. inv_bind Hnj.
        injection Hni as Hni. injection Hnj as Hnj. rewrite <- Hnj in Hni.
        apply (inj pretty) in Hni. subst a0.
        destruct (mo_indices h !! i) as [x|] eqn:Hxi; [|done].
        destruct (mo_indices h !! j) as [y|] eqn:Hxj; [|done].
        injection Ha as ->. injection Ha0 as ->.
        by eapply NoDup_lookup.
      * injection Hni as Hni. injection Hnj as Hnj. rewrite <- Hnj in Hni.
        apply (inj pretty) in Hni. lia.
    + pose proof (read_header_single _ _ _ _ Hh Hmulti). lia.
Qed.

End Names.

(** C8. The grids of one file have pairwise distinct names when the orbital
    indices the file declares are pairwise distinct.  In a sequence batch
    the name override of a file is the printed integer of its run of digits,
    and two grids of files with different overrides never share a name;
    files whose runs of digits denote the same integer get the same
    override. *)
Theorem C8_distinct_names `{RT : Runtime} (fs : filesystem) (scale : float)
    (mode : string) :
  (∀ path force grids content h payload,
     fs_open fs path = Some content →
     read_header true (lines_of content) = Ok (h, payload) →
     NoDup (mo_indices h) →
     read_vdb_grids fs path scale mode force = Ok grids →
     NoDup (grid_name <$> grids))
  ∧ (∀ filepath plan out path1 base1 path2 base2 grids1 grids2 g1 g2,
       sequence_plan fs filepath true = Ok (plan, out) →
       (path1, Some base1) ∈ plan → (path2, Some base2) ∈ plan →
       base1 ≠ base2 →
       read_vdb_grids fs path1 scale mode (Some base1) = Ok grids1 →
       read_vdb_grids fs path2 scale mode (Some base2) = Ok grids2 →
       g1 ∈ grids1 → g2 ∈ grids2 →
       grid_name g1 ≠ grid_name g2)
  ∧ (∀ filepath plan out path base,
       sequence_plan fs filepath true = Ok (plan, out) →
       (path, Some base) ∈ plan →
       ∃ v, 0 ≤ v ∧ base = py_str v)
  ∧ (∀ v1 v2, py_str v1 = py_str v2 ↔ v1 = v2).
Proof.
  repeat apply conj.
  - intros. by eapply names_NoDup.
  - intros filepath plan out path1 base1 path2 base2 grids1 grids2 g1 g2
      Hplan Hin1 Hin2 Hne Hr1 Hr2 Hg1 Hg2 Heq.
    destruct (plan_overrides _ _ _ _ _ _ _ Hplan Hin1) as (v1 & Hv1 & ->).
    destruct (plan_overrides _ _ _ _ _ _ _ Hplan Hin2) as (v2 & Hv2 & ->).
    destruct (py_str_numeral v1 Hv1) as (Hd1 & _).
    destruct (py_str_numeral v2 Hv2) as (Hd2 & _).
    destruct (forced_names _ _ _ _ _ _ _ Hr1 Hg1) as [N1|[k1 N1]];
      destruct (forced_names _ _ _ _ _ _ _ Hr2 Hg2) as [N2|[k2 N2]];
      rewrite N1, N2 in Heq.
    + done.
    + by apply (numeral_no_underscore _ _ _ Hd1) in Heq.
    + symmetry in Heq. by apply (numeral_no_underscore _ _ _ Hd2) in Heq.
    + by apply numeral_prefix_inj in Heq.
  - intros. by eapply plan_overrides.
  - intros v1 v2. split; [apply (inj pretty)|by intros ->].
Qed.

(** The two orbitals of [two_orbitals], declared as 5 and 7. *)
Lemma C8_distinct_names_witness :
  ∃ grids,
    read_vdb_grids (RT := SpecRuntime)
      (Examples.dir [("a.cub", Examples.two_orbitals)]) "/d/a.cub"
      (Examples.fl "1") "MO_INDICES" None = Ok grids
    ∧ NoDup (grid_name <$> grids).
Proof.
  set (fs := Examples.dir [("a.cub", Examples.two_orbitals)]).
  destruct (read_vdb_grids (RT := SpecRuntime) fs "/d/a.cub"
              (Examples.fl "1") "MO_INDICES" None) as [grids| |] eqn:Hr;
    [|vm_compute in Hr; discriminate..].
  exists grids. split; [done|].
  destruct (read_header (RT := SpecRuntime) true (lines_of Examples.two_orbitals))
    as [[h payload]| |] eqn:Hh; [|vm_compute in Hh; discriminate..].
  destruct (C8_distinct_names (RT := SpecRuntime) fs (Examples.fl "1") "MO_INDICES")
    as (Hfile & _).
  assert (Hopen : fs_open fs "/d/a.cub" = Some Examples.two_orbitals)
    by (vm_compute; reflexivity).
  assert (Hidx : NoDup (mo_indices h)).
  { vm_compute in Hh. injection Hh as <- _. cbn [mo_indices].
    apply NoDup_cons. split; [|apply NoDup_singleton].
    intros Hel%list_elem_of_singleton. discriminate. }
  exact (Hfile "/d/a.cub" None grids Examples.two_orbitals h payload Hopen Hh Hidx Hr).
Defined.

(** The files [a1.cub] and [a01.cub] of one directory both get the override
    "1": the batch holds two grids named "1". *)
Lemma C8_leading_zero_counterexample :
  ∃ grids,
    load_cube (RT := SpecRuntime)
      (Examples.dir [("a1.cub", Examples.density_2x2x2);
                     ("a01.cub", Examples.density_2x2x2)])
      "/d/a1.cub" (Examples.fl "1") "MO_INDICES" true
    = ([VdbWrite "/d/a_all.vdb" grids], Ok tt)
    ∧ grid_name <$> grids = ["1"; "1"].
Proof.
  destruct (load_cube (RT := SpecRuntime)
              (Examples.dir [("a1.cub", Examples.density_2x2x2);
                             ("a01.cub", Examples.density_2x2x2)])
              "/d/a1.cub" (Examples.fl "1") "MO_INDICES" true) as [evs out] eqn:H.
  vm_compute in H. injection H as <- <-.
  eexists. split; reflexivity.
Qed.

(** * Further properties of the readers *)

(** ** The header *)

Lemma bind_Diverge {A B : Type} (m : outcome A) (k : A → outcome B) :
  bind m k = Diverge → m = Diverge ∨ ∃ a, m = Ok a ∧ k a = Diverge.
Proof. destruct m; simpl; intros; try discriminate; eauto. Qed.

Lemma map_outcome_returns {A B : Type} (g : A → outcome B) (xs : list A) :
  (∀ x, g x ≠ Diverge) → map_outcome g xs ≠ Diverge.
Proof.
  intros Hg. induction xs as [|x xs IH]; simpl; [done|].
  specialize (Hg x). destruct (g x); simpl; try done.
  destruct (map_outcome g xs); simpl; done.
Qed.

Lemma int_token_returns (x : string) : int_token x ≠ Diverge.
Proof. unfold int_token. by destruct (py_int x). Qed.

Lemma read_indices_Ok (n : Z) (cur : list Z) (f : stream) idx f' :
  read_indices n cur f = Ok (idx, f') → n ≤ Z.of_nat (length idx).
Proof.
  revert cur. induction f as [|l f IH]; intros cur; simpl.
  - destruct (Z.ltb_spec (Z.of_nat (length cur)) n) as [Hlt|Hge]; [done|].
    intros [= <- _]. done.
  - destruct (Z.ltb_spec (Z.of_nat (length cur)) n) as [Hlt|Hge].
    + intros H. inv_bind H. by eapply IH.
    + intros [= <- _]. done.
Qed.

Lemma mo_header_Ok (f : stream) (F : Z) (idx : list Z) (f' : stream) :
  mo_header f = Ok (F, idx, f') →
  (1 < F → Z.of_nat (length idx) = F)
  ∧ (F = 1 → (length idx ≤ 1)%nat)
  ∧ (F < 1 → idx = []).
Proof.
  unfold mo_header. destruct (readline f) as [l f0]. intros H.
  inv_bind H. inv_bind H.
  destruct (Z.ltb_spec 1 (default 1 (py_int a))) as [Hmany|Hfew].
  - inv_bind H. destruct a1 as [cur f1]. injection H as <- <- _.
    apply read_indices_Ok in Ha1.
    split; [|lia]. intros _. unfold slice_to.
    destruct (Z.ltb_spec (default 1 (py_int a)) 0) as [Hn|Hn]; [lia|].
    rewrite length_take. lia.
  - destruct ((default 1 (py_int a) =? 1) && negb (bool_decide (a0 = []))) eqn:Hone.
    + injection H as <- <- _. apply andb_prop in Hone as [Hone%Z.eqb_eq _].
      split; [lia|]. split; [|lia]. intros _. unfold slice_to. simpl.
      rewrite length_take. lia.
    + injection H as <- <- _. split; [lia|]. split; [simpl; lia|done].
Qed.

(** X1. The index list of a parsed header fits its field count: a file
    without orbital header has one field and no index; a field count above
    one comes with exactly that many indices; a field count of one with at
    most one index; any other field count with none. *)
Theorem header_index_count `{RT : Runtime} (guard : bool) (f : stream)
    (h : header float) (payload : string) :
  read_header guard f = Ok (h, payload) →
  (is_multi_mo h = false → n_mo h = 1 ∧ mo_indices h = [])
  ∧ (1 < n_mo h → Z.of_nat (length (mo_indices h)) = n_mo h)
  ∧ (n_mo h = 1 → (length (mo_indices h) ≤ 1)%nat)
  ∧ (n_mo h < 1 → mo_indices h = []).
Proof.
  unfold read_header. intros H.
  repeat (destruct (readline _) as [? ?] in H).
  destruct (guard && _) in H; [discriminate|].
  inv_bind H. destruct a as [n_atoms o].
  inv_bind H. destruct a as [c1 b1].
  inv_bind H. destruct a as [c2 b2].
  inv_bind H. destruct a as [c3 b3].
  inv_bind H. destruct a as [[F idx] f'].
  injection H as <- _. simpl.
  destruct (n_atoms <? 0).
  - apply mo_header_Ok in Ha3 as (Hmany & Hone & Hnone).
    split; [done|]. auto.
  - injection Ha3 as <- <- _. split; [done|]. split; [lia|]. split; [simpl; lia|done].
Qed.

(** The header of [two_orbitals]: two fields, the indices 5 and 7. *)
Lemma header_index_count_witness :
  ∃ h payload,
    read_header (RT := SpecRuntime) true (lines_of Examples.two_orbitals) = Ok (h, payload)
    ∧ Z.of_nat (length (mo_indices h)) = n_mo h.
Proof.
  destruct (read_header (RT := SpecRuntime) true (lines_of Examples.two_orbitals))
    as [[h payload]| |] eqn:Hh; [|vm_compute in Hh; discriminate..].
  exists h, payload. split; [done|].
  destruct (header_index_count (RT := SpecRuntime) true _ h payload Hh) as (_ & Hmany & _).
  apply Hmany. vm_compute in Hh. injection Hh as <- _. simpl. lia.
Defined.

(** X2. The index loop of the orbital header fails to return exactly when
    every line left in the file holds only integers and these, with the
    indices already read, are fewer than the field count. *)
Theorem index_loop_diverges (n : Z) (cur : list Z) (f : stream) :
  read_indices n cur f = Diverge ↔
  ∃ xss, Forall2 (fun l xs => map_outcome int_token (split l) = Ok xs) f xss
         ∧ Z.of_nat (length cur + length (concat xss)) < n.
Proof.
  revert cur. induction f as [|l f IH]; intros cur; simpl.
  - destruct (Z.ltb_spec (Z.of_nat (length cur)) n) as [Hlt|Hge]; split.
    + intros _. exists []. split; [constructor|]. simpl. lia.
    + done.
    + done.
    + intros (xss & Hall & Hlen). lia.
  - destruct (Z.ltb_spec (Z.of_nat (length cur)) n) as [Hlt|Hge]; split.
    + intros H. apply bind_Diverge in H as [H|(more & Hmore & H)].
      { by apply map_outcome_returns in H; [|apply int_token_returns]. }
      apply IH in H as (xss & Hall & Hlen).
      exists (more :: xss). split; [by constructor|].
      simpl. rewrite length_app in *. lia.
    + intros (xss & Hall & Hlen).
      apply Forall2_cons_inv_l in Hall as (more & xss' & Hmore & Hall & ->).
      rewrite Hmore. simpl. apply IH. exists xss'. split; [done|].
      simpl in Hlen. rewrite length_app in *. lia.
    + done.
    + intros (xss & Hall & Hlen). lia.
Qed.

(** Three indices asked for, two read, one line with a single integer left. *)
Lemma index_loop_diverges_witness :
  read_indices 4 [5; 7] ["9"] = Diverge.
Proof.
  apply index_loop_diverges. exists [[9]].
  split; [repeat constructor|]. simpl. lia.
Defined.

(** X3. Reading a header fails to return only for a file with a negative
    atom count: a file whose third line starts with an integer that is not
    negative is always read to an end. *)
Theorem header_returns_for_single_field `{RT : Runtime} (guard : bool) (f : stream) :
  read_header guard f = Diverge →
  ∃ a, declared_atom_count f = Some a ∧ a < 0.
Proof.
  assert (Hcv : ∀ line, count_and_vector line ≠ Diverge).
  { intros line. unfold count_and_vector.
    destruct (line !! 0%nat) as [tok|]; simpl; [|done].
    unfold int_token. destruct (py_int tok); simpl; [|done].
    assert (Hm : map_outcome float_token (slice_1_4 line) ≠ Diverge).
    { apply map_outcome_returns. intros x. unfold float_token. by destruct (py_float x). }
    destruct (map_outcome float_token (slice_1_4 line)); simpl; done. }
  unfold read_header, declared_atom_count.
  destruct f as [|t1 [|t2 [|l3 rest]]]; simpl.
  - by destruct (guard && _).
  - by destruct (guard && _).
  - by destruct (guard && _).
  - destruct (guard && _); [done|]. intros H.
    apply bind_Diverge in H as [H|([a o] & H3 & H)]; [by apply Hcv in H|].
    assert (Hcount : (split l3 !! 0%nat) ≫= py_int = Some a).
    { unfold count_and_vector in H3.
      destruct (split l3 !! 0%nat) as [tok|]; simpl in *; [|done].
      unfold int_token in H3. destruct (py_int tok); simpl in *; [|done].
      destruct (map_outcome float_token _); simpl in *; try done. by injection H3 as -> _. }
    exists a. split; [exact Hcount|].
    repeat (destruct (readline _) as [? ?] in H).
    apply bind_Diverge in H as [H|([c1 b1] & _ & H)]; [by apply Hcv in H|].
    apply bind_Diverge in H as [H|([c2 b2] & _ & H)]; [by apply Hcv in H|].
    apply bind_Diverge in H as [H|([c3 b3] & _ & H)]; [by apply Hcv in H|].
    destruct (Z.ltb_spec a 0) as [Hneg|Hpos]; [done|].
    by apply bind_Diverge in H as [H|([[F idx] f'] & _ & H)].
Qed.

(** The file [missing_indices] declares the atom count -1. *)
Lemma header_returns_for_single_field_witness :
  ∃ a, declared_atom_count (lines_of Examples.missing_indices) = Some a ∧ a < 0.
Proof.
  apply (header_returns_for_single_field (RT := SpecRuntime) true).
  vm_compute. reflexivity.
Defined.

Section HeaderLines.
Context `{RT : Runtime}.



End HeaderLines.



(** X5. The two title lines and the atom lines are read and dropped: changing
    them, line for line, changes nothing in the parsed header or the payload. *)
Theorem titles_and_atoms_ignored `{RT : Runtime} (guard : bool)
    (t1 t2 t1' t2' l3 l4 l5 l6 : string) (atoms atoms' rest : list string)
    (a : Z) (o : list float) :
  count_and_vector (split l3) = Ok (a, o) →
  length atoms = Z.to_nat (Z.abs a) →
  length atoms' = length atoms →
  read_header guard (t1 :: t2 :: l3 :: l4 :: l5 :: l6 :: atoms ++ rest)
  = read_header guard (t1' :: t2' :: l3 :: l4 :: l5 :: l6 :: atoms' ++ rest).
Proof.
  intros H3 Hlen Hlen'. unfold read_header. simpl.
  destruct (guard && _); [done|]. rewrite H3. simpl.
  destruct (count_and_vector (split l4)) as [[c1 b1]| |]; simpl; try done.
  destruct (count_and_vector (split l5)) as [[c2 b2]| |]; simpl; try done.
  destruct (count_and_vector (split l6)) as [[c3 b3]| |]; simpl; try done.
  assert (Hn : Z.to_nat (if a <? 0 then Z.abs a else a) = length atoms).
  { destruct (Z.ltb_spec a 0); lia. }
  rewrite Hn, drop_app_length. rewrite <- Hlen', drop_app_length. done.
Qed.

(** The atom line and the titles of [density_2x2x2] replaced by other text. *)
Lemma titles_and_atoms_ignored_witness :
  let line s := s +:+ String nl "" in
  let header := line <$> ["1 0.0 0.0 0.0"; "2 1.0 0.0 0.0"; "2 0.0 1.0 0.0"; "2 0.0 0.0 1.0"] in
  let payload := line <$> ["1 2 3 4 5 6"; "7 8"] in
  read_header (RT := SpecRuntime) true
    (line "title" :: line "comment" :: header ++ line "1 1.0 0.0 0.0 0.0" :: payload)
  = read_header (RT := SpecRuntime) true
      (line "another title" :: line "" :: header ++ line "not an atom record" :: payload).
Proof.
  intros line header payload.
  apply (titles_and_atoms_ignored (RT := SpecRuntime) true
           (line "title") (line "comment") (line "another title") (line "")
           (line "1 0.0 0.0 0.0") (line "2 1.0 0.0 0.0") (line "2 0.0 1.0 0.0")
           (line "2 0.0 0.0 1.0")
           [line "1 1.0 0.0 0.0 0.0"] [line "not an atom record"] payload
           1 (Examples.fl <$> ["0.0"; "0.0"; "0.0"])).
  - vm_compute. reflexivity.
  - reflexivity.
  - reflexivity.
Defined.

(** X6. A file whose third line is missing or blank is refused by both
    readers, by [cube_blender] with the [ValueError] of its own test, by the
    add-on with the [IndexError] of [line[0]]; the add-on writes nothing. *)
Theorem blank_third_line `{RT : Runtime} (fs : filesystem) (path content : string)
    (scale : float) (mode : string) (force : option string) :
  fs_open fs path = Some content →
  (∀ l, lines_of content !! 2%nat = Some l → split l = []) →
  read_header true (lines_of content) = Raise ValueError
  ∧ read_header false (lines_of content) = Raise IndexError
  ∧ read_vdb_grids fs path scale mode force = Raise ValueError
  ∧ Addon.load_cube fs path scale mode = ([], Raise IndexError).
Proof.
  intros Hopen Hblank.
  assert (Hh : ∀ guard, read_header guard (lines_of content)
                        = Raise (if guard then ValueError else IndexError)).
  { intros guard. unfold read_header.
    destruct (lines_of content) as [|t1 [|t2 [|l3 rest]]]; simpl;
      try (by destruct guard).
    rewrite (Hblank l3 eq_refl). by destruct guard. }
  split; [apply (Hh true)|]. split; [apply (Hh false)|].
  unfold read_vdb_grids, Addon.load_cube. rewrite Hopen. simpl.
  by rewrite (Hh true), (Hh false).
Qed.

(** The empty file. *)
Lemma blank_third_line_witness :
  read_vdb_grids (RT := SpecRuntime) (Examples.dir [("e.cub", "")]) "/d/e.cub"
    (Examples.fl "1") "MO_INDICES" None = Raise ValueError
  ∧ Addon.load_cube (RT := SpecRuntime) (Examples.dir [("e.cub", "")]) "/d/e.cub"
      (Examples.fl "1") "MO_INDICES" = ([], Raise IndexError).
Proof.
  destruct (blank_third_line (RT := SpecRuntime) (Examples.dir [("e.cub", "")])
              "/d/e.cub" "" (Examples.fl "1") "MO_INDICES" None)
    as (_ & _ & Hr & Ha).
  - reflexivity.
  - intros l Hl. discriminate Hl.
  - split; [exact Hr|exact Ha].
Defined.

(** X7. The matrix is built exactly when each of the three basis vectors and
    the origin has one or three entries; a vector of one entry is spread over
    the three columns of its row; with any other length the assignment raises
    [ValueError]. *)
Theorem matrix_needs_one_or_three `{RT : Runtime}
    (v1 v2 v3 o : list float) (scale : float) :
  let row (v : list float) (last : float) :=
    match v with
    | [x] => [fmul x scale; fmul x scale; fmul x scale; last]
    | [x; y; z] => [fmul x scale; fmul y scale; fmul z scale; last]
    | _ => []
    end in
  let fits (v : list float) := length v = 1%nat ∨ length v = 3%nat in
  (fits v1 ∧ fits v2 ∧ fits v3 ∧ fits o →
   build_matrix v1 v2 v3 o scale
   = Ok [row v1 fzero; row v2 fzero; row v3 fzero; row o fone])
  ∧ (¬ (fits v1 ∧ fits v2 ∧ fits v3 ∧ fits o) →
     build_matrix v1 v2 v3 o scale = Raise ValueError).
Proof.
  intros row fits. unfold build_matrix.
  assert (Hcase : ∀ v, fits v ∨ ∀ mat i, assign_row mat i v scale = Raise ValueError).
  { intros v. unfold fits.
    destruct v as [|x [|y [|z [|w v]]]]; simpl; auto; right; intros; reflexivity. }
  assert (Hfit : ∀ v mat i last, fits v →
            assign_row mat i v scale = Ok (alter (fun r => take 3 (row v last) ++ drop 3 r) i mat)).
  { intros v mat i last [Hv|Hv];
      destruct v as [|x [|y [|z [|w v]]]]; simpl in Hv; try lia; reflexivity. }
  split.
  - intros (H1 & H2 & H3 & Ho).
    rewrite (Hfit v1 _ _ fzero H1). simpl.
    rewrite (Hfit v2 _ _ fzero H2). simpl.
    rewrite (Hfit v3 _ _ fzero H3). simpl.
    rewrite (Hfit o _ _ fone Ho). simpl.
    destruct H1 as [H1|H1], H2 as [H2|H2], H3 as [H3|H3], Ho as [Ho|Ho];
      destruct v1 as [|? [|? [|? [|? ?]]]]; simpl in H1; try lia;
      destruct v2 as [|? [|? [|? [|? ?]]]]; simpl in H2; try lia;
      destruct v3 as [|? [|? [|? [|? ?]]]]; simpl in H3; try lia;
      destruct o as [|? [|? [|? [|? ?]]]]; simpl in Ho; try lia;
      reflexivity.
  - intros Hnot.
    destruct (Hcase v1) as [H1|H1]; [|by rewrite H1].
    rewrite (Hfit v1 _ _ fzero H1). simpl.
    destruct (Hcase v2) as [H2|H2]; [|by rewrite H2].
    rewrite (Hfit v2 _ _ fzero H2). simpl.
    destruct (Hcase v3) as [H3|H3]; [|by rewrite H3].
    rewrite (Hfit v3 _ _ fzero H3). simpl.
    destruct (Hcase o) as [Ho|Ho]; [|by rewrite Ho].
    by destruct Hnot.
Qed.

(** An axis line with a single component, [2 0.5], beside full ones. *)
Lemma matrix_needs_one_or_three_witness :
  let f := Examples.fl in
  build_matrix (RT := SpecRuntime) [f "0.5"] [f "0"; f "1"; f "0"] [f "0"; f "0"; f "1"]
    [f "0"; f "0"; f "0"] (f "2.0")
  = Ok [ [f "1"; f "1"; f "1"; f "0"];
         [f "0"; f "2"; f "0"; f "0"];
         [f "0"; f "0"; f "2"; f "0"];
         [f "0"; f "0"; f "0"; f "1"] ].
Proof.
  intros f.
  destruct (matrix_needs_one_or_three (RT := SpecRuntime)
              [f "0.5"] [f "0"; f "1"; f "0"] [f "0"; f "0"; f "1"]
              [f "0"; f "0"; f "0"] (f "2.0")) as [Hfit _].
  rewrite Hfit by (simpl; auto). vm_compute. reflexivity.
Defined.

(** ** The sequence plan *)

Lemma sequence_plan_sorted (fs : filesystem) (filepath prefix digits suffix : string)
    (all_files : list string) :
  re_search (basename filepath) = Some (prefix, digits, suffix) →
  fs_listdir fs (dirname filepath) = Some all_files →
  matched_files prefix suffix all_files ≠ [] →
  sequence_plan fs filepath true
  = Ok ((fun x => (join (dirname filepath) x.1.1, Some (py_str x.2)))
          <$> sort_by snd (matched_files prefix suffix all_files),
        join (dirname filepath)
          ((if negb (ends_with_char "_" prefix) && negb (ends_with_char "." prefix)
            then prefix +:+ "_" else prefix) +:+ "all.vdb")).
Proof.
  intros Hre Hls Hne. unfold sequence_plan. rewrite Hre, Hls. simpl.
  rewrite scan_files_spec. simpl.
  rewrite (sort_by_fmap snd snd) by done.
  rewrite bool_decide_false.
  - simpl. by rewrite <- list_fmap_compose.
  - intros Hnil%fmap_nil_inv.
    apply Hne. apply Permutation_nil_r. rewrite <- Hnil. symmetry. apply sort_by_perm.
Qed.

Lemma insert_by_filter {A : Type} (key : A → Z) (k : Z) (x : A) (l : list A) :
  List.filter (fun y => key y =? k) (insert_by key x l)
  = List.filter (fun y => key y =? k) (x :: l).
Proof.
  induction l as [|y l IH]; [done|]. cbn [insert_by].
  destruct (Z.leb_spec (key x) (key y)) as [Hle|Hgt]; [done|].
  cbn [List.filter] in *. rewrite IH.
  destruct (Z.eqb_spec (key x) k) as [Hx|Hx]; [|done].
  destruct (Z.eqb_spec (key y) k) as [Hy|Hy]; [lia|done].
Qed.

Lemma sort_by_filter {A : Type} (key : A → Z) (k : Z) (l : list A) :
  List.filter (fun y => key y =? k) (sort_by key l) = List.filter (fun y => key y =? k) l.
Proof.
  induction l as [|x l IH]; [done|]. unfold sort_by in *. cbn [foldr].
  rewrite insert_by_filter. cbn [List.filter]. by rewrite IH.
Qed.

Lemma filter_fmap {A B : Type} (p : B → bool) (g : A → B) (l : list A) :
  List.filter p (g <$> l) = g <$> List.filter (fun x => p (g x)) l.
Proof.
  induction l as [|x l IH]; [done|]. rewrite fmap_cons. cbn [List.filter].
  rewrite IH. by destruct (p (g x)).
Qed.

(** X8. The sort of the plan is stable: the entries of the plan that carry
    the same name override are the listed files of that number in the order
    of the directory listing. *)
Theorem plan_keeps_listing_order (fs : filesystem)
    (filepath prefix digits suffix : string) (all_files : list string) (v : Z) :
  re_search (basename filepath) = Some (prefix, digits, suffix) →
  fs_listdir fs (dirname filepath) = Some all_files →
  matched_files prefix suffix all_files ≠ [] →
  ∃ plan out,
    sequence_plan fs filepath true = Ok (plan, out)
    ∧ List.filter (fun e => bool_decide (e.2 = Some (py_str v))) plan
      = (fun x => (join (dirname filepath) x.1.1, Some (py_str v)))
          <$> List.filter (fun x => x.2 =? v) (matched_files prefix suffix all_files).
Proof.
  intros Hre Hls Hne. eexists _, _.
  split; [by apply (sequence_plan_sorted fs filepath prefix digits suffix all_files)|].
  rewrite filter_fmap. cbn [snd].
  assert (Hext : ∀ l : list (string * string * Z),
            List.filter (fun x => bool_decide (Some (py_str x.2) = Some (py_str v))) l
            = List.filter (fun x => x.2 =? v) l).
  { intros l. apply List.filter_ext. intros x.
    destruct (Z.eqb_spec x.2 v) as [->|Hx]; [by rewrite bool_decide_true|].
    rewrite bool_decide_false; [done|]. intros [= Heq]. by apply (inj pretty) in Heq. }
  rewrite Hext, (sort_by_filter snd v).
  apply list_fmap_ext. intros i x Hx.
  apply list_elem_of_lookup_2, list_elem_of_In, List.filter_In in Hx as [_ Hv%Z.eqb_eq].
  by rewrite Hv.
Qed.

(** The listing [a01.cub, a2.cub, a1.cub]: under the override "1" the plan
    holds [a01.cub] before [a1.cub]. *)
Lemma plan_keeps_listing_order_witness :
  ∃ plan out,
    sequence_plan (Examples.dir [("a01.cub", ""); ("a2.cub", ""); ("a1.cub", "")])
      "/d/a2.cub" true = Ok (plan, out)
    ∧ List.filter (fun e => bool_decide (e.2 = Some (py_str 1))) plan
      = [("/d/a01.cub", Some "1"); ("/d/a1.cub", Some "1")].
Proof.
  destruct (plan_keeps_listing_order
              (Examples.dir [("a01.cub", ""); ("a2.cub", ""); ("a1.cub", "")])
              "/d/a2.cub" "a" "2" ".cub" ["a01.cub"; "a2.cub"; "a1.cub"] 1
              eq_refl eq_refl) as (plan & out & Hplan & Hsame).
  { vm_compute. discriminate. }
  exists plan, out. split; [exact Hplan|]. rewrite Hsame. vm_compute. reflexivity.
Defined.

Lemma re_search_match (name prefix digits suffix : string) :
  re_search name = Some (prefix, digits, suffix) →
  all_digits digits = true ∧ digits ≠ "" ∧ pattern_match prefix suffix name = Some digits.
Proof.
  revert prefix. induction name as [|c r IH]; intros prefix; [done|].
  cbn [re_search].
  destruct (span_digits (String c r)) as [d t] eqn:Hspan.
  destruct (negb (bool_decide (d = "")) && is_extension t) eqn:Hfound.
  - intros [= <- <- <-].
    apply andb_prop in Hfound as [Hd Hext].
    apply negb_true_iff, bool_decide_eq_false in Hd.
    destruct (span_digits_spec _ _ _ Hspan) as [Hall Hname].
    repeat apply conj; try done.
    unfold pattern_match. cbn [strip_prefix]. rewrite Hspan.
    rewrite (bool_decide_false _ Hd), (bool_decide_true (t = t)) by done. done.
  - destruct (re_search r) as [[[p' d'] s']|] eqn:Hrec; [|done].
    intros [= <- <- <-].
    destruct (IH p' eq_refl) as (Hall & Hd & Hmatch).
    repeat apply conj; try done.
    unfold pattern_match in *. cbn [strip_prefix].
    by rewrite bool_decide_true.
Qed.

(** X9. What the search finds in a file name, the pattern built from it
    matches: the name is prefix, digits and suffix in this order, the digits
    are a run of at least one digit, the suffix is the extension, and the
    pattern of prefix and suffix matches the name with these digits. *)
Theorem search_then_match (name prefix digits suffix : string) :
  re_search name = Some (prefix, digits, suffix) →
  name = prefix +:+ digits +:+ suffix
  ∧ digits ≠ ""
  ∧ all_digits digits = true
  ∧ is_extension suffix = true
  ∧ pattern_match prefix suffix name = Some digits.
Proof.
  revert prefix. induction name as [|c r IH]; intros prefix; [done|].
  cbn [re_search].
  destruct (span_digits (String c r)) as [d t] eqn:Hspan.
  destruct (negb (bool_decide (d = "")) && is_extension t) eqn:Hfound.
  - intros [= <- <- <-].
    apply andb_prop in Hfound as [Hd Hext].
    apply negb_true_iff, bool_decide_eq_false in Hd.
    destruct (span_digits_spec _ _ _ Hspan) as [Hall Hname].
    repeat apply conj; try done.
    unfold pattern_match. cbn [strip_prefix]. rewrite Hspan.
    rewrite (bool_decide_false _ Hd), (bool_decide_true (t = t)) by done. done.
  - destruct (re_search r) as [[[p' d'] s']|] eqn:Hrec; [|done].
    intros [= <- <- <-].
    destruct (IH p' eq_refl) as (Hname & Hd & Hall & Hext & Hmatch).
    repeat apply conj; try done.
    + by rewrite string_app_cons, <- Hname.
    + unfold pattern_match in *. cbn [strip_prefix].
      by rewrite bool_decide_true.
Qed.

(** The name [scan_12.run3.cube]. *)
Lemma search_then_match_witness :
  pattern_match "scan_12.run" ".cube" "scan_12.run3.cube" = Some "3".
Proof.
  by destruct (search_then_match "scan_12.run3.cube" "scan_12.run" "3" ".cube" eq_refl)
    as (_ & _ & _ & _ & Hmatch).
Defined.

(** X10. In sequence mode the starting file is part of its own sequence: when
    the directory lists its name, the plan holds its path with the printed
    integer of its run of digits as override. *)
Theorem starting_file_in_plan (fs : filesystem)
    (filepath prefix digits suffix : string) (all_files : list string) :
  re_search (basename filepath) = Some (prefix, digits, suffix) →
  fs_listdir fs (dirname filepath) = Some all_files →
  basename filepath ∈ all_files →
  ∃ plan out v,
    sequence_plan fs filepath true = Ok (plan, out)
    ∧ py_int digits = Some v
    ∧ (join (dirname filepath) (basename filepath), Some (py_str v)) ∈ plan.
Proof.
  intros Hre Hls Hin.
  destruct (re_search_match _ _ _ _ Hre) as (Hall & Hne & Hmatch).
  destruct (py_int_all_digits digits Hall Hne) as (v & Hv & _).
  assert (Hel : (basename filepath, digits, v) ∈ matched_files prefix suffix all_files).
  { by apply matched_files_elem. }
  eexists _, _, v. split.
  - apply (sequence_plan_sorted fs filepath prefix digits suffix all_files); try done.
    intros Hnil. rewrite Hnil in Hel. by apply elem_of_nil in Hel.
  - split; [done|].
    apply list_elem_of_fmap. exists (basename filepath, digits, v).
    split; [done|]. by rewrite sort_by_perm.
Qed.

(** [/d/a010.cub] in a directory that lists it. *)
Lemma starting_file_in_plan_witness :
  ∃ plan out,
    sequence_plan (Examples.dir [("a2.cub", ""); ("a010.cub", "")]) "/d/a010.cub" true
    = Ok (plan, out)
    ∧ ("/d/a010.cub", Some "10") ∈ plan.
Proof.
  destruct (starting_file_in_plan (Examples.dir [("a2.cub", ""); ("a010.cub", "")])
              "/d/a010.cub" "a" "010" ".cub" ["a2.cub"; "a010.cub"] eq_refl eq_refl)
    as (plan & out & v & Hplan & Hv & Hin).
  { right. left. }
  exists plan, out. split; [exact Hplan|].
  vm_compute in Hv. injection Hv as <-. exact Hin.
Defined.

(** X11. The plan and the output file of a sequence do not depend on the
    member it is started from: two paths of one directory whose names have
    the same prefix and suffix around their runs of digits give the same
    plan, and [load_cube] does the same for both, as soon as the directory
    lists one name of the pattern. *)
Theorem plan_same_for_members `{RT : Runtime} (fs : filesystem)
    (path1 path2 prefix digits1 digits2 suffix : string) (all_files : list string)
    (scale : float) (mode : string) :
  dirname path1 = dirname path2 →
  re_search (basename path1) = Some (prefix, digits1, suffix) →
  re_search (basename path2) = Some (prefix, digits2, suffix) →
  fs_listdir fs (dirname path1) = Some all_files →
  matched_files prefix suffix all_files ≠ [] →
  sequence_plan fs path1 true = sequence_plan fs path2 true
  ∧ load_cube fs path1 scale mode true = load_cube fs path2 scale mode true.
Proof.
  intros Hdir Hre1 Hre2 Hls Hne.
  assert (Hplan : sequence_plan fs path1 true = sequence_plan fs path2 true).
  { rewrite (sequence_plan_sorted fs path1 prefix digits1 suffix all_files) by done.
    rewrite (sequence_plan_sorted fs path2 prefix digits2 suffix all_files)
      by (done || by rewrite <- Hdir).
    by rewrite Hdir. }
  split; [done|]. unfold load_cube. by rewrite Hplan.
Qed.

(** The sequence of [/d] started from [a2.cub] and from [a010.cub]. *)
Lemma plan_same_for_members_witness :
  let fs := Examples.dir [("a2.cub", ""); ("a010.cub", ""); ("a001.cub", "")] in
  sequence_plan fs "/d/a2.cub" true = sequence_plan fs "/d/a010.cub" true.
Proof.
  intros fs.
  destruct (plan_same_for_members (RT := SpecRuntime) fs "/d/a2.cub" "/d/a010.cub"
              "a" "2" "010" ".cub" ["a2.cub"; "a010.cub"; "a001.cub"]
              (Examples.fl "1") "MO_INDICES" eq_refl eq_refl eq_refl eq_refl)
    as [Hplan _].
  - vm_compute. discriminate.
  - exact Hplan.
Defined.

Lemma sequence_plan_cases (fs : filesystem) (filepath : string) (import_sequence : bool) :
  match sequence_plan fs filepath import_sequence with
  | Ok (plan, out) =>
      plan = [(filepath, None)]
      ∨ (plan ≠ [] ∧ Forall (fun e => ∃ v, 0 ≤ v ∧ e.2 = Some (py_str v)) plan)
  | Raise e =>
      import_sequence = true ∧ e = OSError
      ∧ re_search (basename filepath) ≠ None
      ∧ fs_listdir fs (dirname filepath) = None
  | Diverge => False
  end.
Proof.
  unfold sequence_plan. destruct import_sequence; [|by left].
  destruct (re_search (basename filepath)) as [[[prefix digits] suffix]|] eqn:Hre;
    [|by left].
  destruct (fs_listdir fs (dirname filepath)) as [all_files|] eqn:Hls; simpl; [|done].
  rewrite scan_files_spec. simpl.
  destruct (bool_decide _) eqn:Hnil; simpl; [by left|].
  apply bool_decide_eq_false in Hnil. right. split.
  - intros Hmap%fmap_nil_inv. done.
  - apply Forall_fmap, Forall_forall. intros x Hx. simpl.
    rewrite sort_by_perm in Hx. apply list_elem_of_fmap in Hx as (y & -> & Hy). simpl.
    apply matched_files_elem in Hy as (_ & Hm & Hv).
    destruct (pattern_match_digits _ _ _ _ Hm) as [Hall Hne].
    destruct (py_int_all_digits _ Hall Hne) as (v & Hv' & Hpos).
    exists y.2. split; [congruence|done].
Qed.

(** X12. A plan is never empty, and overrides come for all entries or for
    none: the plan is the starting file alone, without override, or every
    entry carries the printed form of an integer that is not negative.  The
    only exception the plan can raise is the [OSError] of the directory
    listing, in sequence mode and for a name with a run of digits. *)
Theorem plan_shape (fs : filesystem) (filepath : string) (import_sequence : bool) :
  (∀ plan out,
     sequence_plan fs filepath import_sequence = Ok (plan, out) →
     plan ≠ []
     ∧ (plan = [(filepath, None)]
        ∨ Forall (fun e => ∃ v, 0 ≤ v ∧ e.2 = Some (py_str v)) plan))
  ∧ (∀ e,
       sequence_plan fs filepath import_sequence = Raise e →
       import_sequence = true ∧ e = OSError
       ∧ re_search (basename filepath) ≠ None
       ∧ fs_listdir fs (dirname filepath) = None)
  ∧ sequence_plan fs filepath import_sequence ≠ Diverge.
Proof.
  pose proof (sequence_plan_cases fs filepath import_sequence) as Hcases.
  destruct (sequence_plan fs filepath import_sequence) as [[plan out]|e|].
  - split; [|split; [done|done]]. intros ? ? [= <- <-].
    destruct Hcases as [->|[Hne Hall]]; [split; [done|by left]|split; [done|by right]].
  - split; [done|]. split; [|done]. by intros ? [= <-].
  - done.
Qed.

(** A directory that cannot be listed. *)
Lemma plan_shape_witness :
  sequence_plan (FileSystem (fun _ => None) (fun _ => None)) "/d/a1.cub" true
  = Raise OSError.
Proof.
  destruct (sequence_plan (FileSystem (fun _ => None) (fun _ => None)) "/d/a1.cub" true)
    as [[plan out]|e|] eqn:Hplan; [vm_compute in Hplan; discriminate| |
                                   vm_compute in Hplan; discriminate].
  destruct (plan_shape (FileSystem (fun _ => None) (fun _ => None)) "/d/a1.cub" true)
    as (_ & Hraise & _).
  by destruct (Hraise e Hplan) as (_ & -> & _).
Defined.

(** ** [load_cube] and the operator *)

Section Loading.
Context `{RT : Runtime}.



Lemma read_header_guard (f : stream) (r : header float * string) :
  read_header true f = Ok r → read_header false f = Ok r.
Proof.
  unfold read_header.
  repeat (destruct (readline _) as [? ?]).
  simpl. by destruct (bool_decide _).
Qed.

Lemma addon_name (mode : string) (multi : bool) (F : Z) (idx : list Z) (m : nat)
    (name : string) :
  name_of None mode multi F idx m = Ok name →
  Addon.name_of mode multi idx m = Ok (if multi then "MO_" +:+ name else name).
Proof.
  unfold name_of, Addon.name_of. destruct multi; [|done].
  destruct (bool_decide (mode = "MO_INDICES") && negb (bool_decide (idx = []))).
  - intros H. inv_bind H. injection H as <-. by rewrite Ha.
  - by intros [= <-].
Qed.

Lemma addon_make_grid (h : header float) (data : ndarray float) (tr : transform)
    (mode : string) (m : nat) (g : grid float32 transform) :
  make_grid (fun h m => name_of None mode (is_multi_mo h) (n_mo h) (mo_indices h) m)
    h data tr m = Ok g →
  make_grid (fun h m => Addon.name_of mode (is_multi_mo h) (mo_indices h) m) h data tr m
  = Ok (with_mo_prefix (is_multi_mo h) g).
Proof.
  unfold make_grid. intros H.
  apply bind_Ok in H as (vol & Hvol & H).
  apply bind_Ok in H as (name & Hname & H).
  injection H as <-. rewrite Hvol. cbn [bind].
  rewrite (addon_name _ _ _ _ _ _ Hname). cbn [bind].
  unfold with_mo_prefix. by destruct (is_multi_mo h).
Qed.

Lemma addon_grids (h : header float) (data : ndarray float) (tr : transform)
    (mode : string) (ms : list nat) (grids : list (grid float32 transform)) :
  map_outcome
    (make_grid (fun h m => name_of None mode (is_multi_mo h) (n_mo h) (mo_indices h) m)
       h data tr) ms = Ok grids →
  map_outcome
    (make_grid (fun h m => Addon.name_of mode (is_multi_mo h) (mo_indices h) m) h data tr)
    ms = Ok (with_mo_prefix (is_multi_mo h) <$> grids).
Proof.
  revert grids. induction ms as [|m ms IH]; intros grids; cbn [map_outcome].
  - by intros [= <-].
  - intros H.
    apply bind_Ok in H as (g & Hg & H).
    apply bind_Ok in H as (gs & Hgs & H).
    injection H as <-.
    rewrite (addon_make_grid _ _ _ _ _ _ Hg). cbn [bind].
    rewrite (IH _ Hgs). cbn [bind]. by rewrite fmap_cons.
Qed.

End Loading.



(** X14. Where [read_vdb_grids] reads a file without forced name, the add-on
    reads it too and writes the same grids, in the same order, to the input
    path with the extension replaced by ".vdb"; the grids differ only in
    the prefix "MO_" of the names under multi-field framing. *)
Theorem addon_writes_same_grids `{RT : Runtime} (fs : filesystem)
    (path content : string) (scale : float) (mode : string)
    (h : header float) (payload : string) (grids : list (grid float32 transform)) :
  fs_open fs path = Some content →
  read_header true (lines_of content) = Ok (h, payload) →
  read_vdb_grids fs path scale mode None = Ok grids →
  Addon.load_cube fs path scale mode
  = ([VdbWrite ((splitext path).1 +:+ ".vdb") (with_mo_prefix (is_multi_mo h) <$> grids)],
     Ok tt).
Proof.
  intros Hopen Hh Hr.
  unfold read_vdb_grids in Hr. rewrite Hopen in Hr. simpl in Hr.
  rewrite Hh in Hr. simpl in Hr.
  unfold Addon.load_cube. rewrite Hopen. simpl.
  rewrite (read_header_guard _ _ Hh). simpl.
  unfold grids_of, Addon.grids_of, grids_with in *.
  inv_bind Hr. inv_bind Hr. inv_bind Hr.
  rewrite Ha, Ha0. simpl. rewrite Ha1. simpl.
  by rewrite (addon_grids _ _ _ _ _ _ Hr).
Qed.

(** The file [two_orbitals]. *)
Lemma addon_writes_same_grids_witness :
  ∃ grids,
    read_vdb_grids (RT := SpecRuntime)
      (Examples.dir [("a.cub", Examples.two_orbitals)]) "/d/a.cub"
      (Examples.fl "1") "MO_INDICES" None = Ok grids
    ∧ Addon.load_cube (RT := SpecRuntime)
        (Examples.dir [("a.cub", Examples.two_orbitals)]) "/d/a.cub"
        (Examples.fl "1") "MO_INDICES"
      = ([VdbWrite "/d/a.vdb" (with_mo_prefix true <$> grids)], Ok tt).
Proof.
  set (fs := Examples.dir [("a.cub", Examples.two_orbitals)]).
  destruct (read_vdb_grids (RT := SpecRuntime) fs "/d/a.cub"
              (Examples.fl "1") "MO_INDICES" None) as [grids| |] eqn:Hr;
    [|vm_compute in Hr; discriminate..].
  destruct (read_header (RT := SpecRuntime) true (lines_of Examples.two_orbitals))
    as [[h payload]| |] eqn:Hh; [|vm_compute in Hh; discriminate..].
  exists grids. split; [done|].
  assert (Hopen : fs_open fs "/d/a.cub" = Some Examples.two_orbitals)
    by (vm_compute; reflexivity).
  rewrite (addon_writes_same_grids (RT := SpecRuntime) fs "/d/a.cub"
             Examples.two_orbitals (Examples.fl "1") "MO_INDICES" h payload grids
             Hopen Hh Hr).
  vm_compute in Hh. injection Hh as <- _. reflexivity.
Defined.

Section OperatorLemmas.
Context {F32 T : Type}.
Implicit Types load : @loader F32 T.

Lemma import_files_returns load directory files success :
  Forall (fun name => (load (join directory name)).2 ≠ Diverge) files →
  import_files load directory files success
  = (omap (fun name => match (load (join directory name)).2 with
                       | Raise e => Some (FailedFile name e)
                       | _ => None
                       end) files,
     concat ((fun name => (load (join directory name)).1) <$> files),
     Ok (success || existsb (fun name => match (load (join directory name)).2 with
                                         | Ok _ => true
                                         | _ => false
                                         end) files)).
Proof.
  intros Hall. revert success.
  induction Hall as [|name files Hname _ IH]; intros success.
  - simpl. by rewrite orb_false_r.
  - cbn [import_files]. rewrite fmap_cons. cbn [concat omap list_omap existsb].
    destruct (load (join directory name)) as [evs [u|e|]]; simpl in *; [| |done].
    + rewrite IH. by rewrite orb_true_r.
    + by rewrite IH.
Qed.

Lemma import_files_never_raises load directory files success e :
  (import_files load directory files success).2 ≠ Raise e.
Proof.
  revert success. induction files as [|name files IH]; intros success; [done|].
  cbn [import_files].
  destruct (load (join directory name)) as [evs [u|e'|]]; [| |done].
  - specialize (IH true).
    by destruct (import_files load directory files true) as [[reports more] out].
  - specialize (IH success).
    by destruct (import_files load directory files success) as [[reports more] out].
Qed.



End OperatorLemmas.

(** X15. [execute] never lets an exception of [load_cube] escape, and without
    the OpenVDB module it loads nothing and is cancelled.  For a selection
    of files each of which is loaded to an end, it reports one error for
    every file that fails, in the order of the selection, makes the writer
    calls of the files in that order, and is finished exactly when at
    least one file was loaded; one failing file does not stop the others. *)
Theorem execute_selection {F32 T : Type} (load : @loader F32 T)
    (filepath directory : string) (files : list string) :
  (∀ openvdb e, (execute_with load openvdb filepath directory files).2 ≠ Raise e)
  ∧ execute_with load false filepath directory files = ([NoOpenVDB], [], Ok CANCELLED)
  ∧ (files ≠ [] →
     Forall (fun name => (load (join directory name)).2 ≠ Diverge) files →
     execute_with load true filepath directory files
     = (omap (fun name => match (load (join directory name)).2 with
                          | Raise e => Some (FailedFile name e)
                          | _ => None
                          end) files,
        concat ((fun name => (load (join directory name)).1) <$> files),
        Ok (if existsb (fun name => match (load (join directory name)).2 with
                                    | Ok _ => true
                                    | _ => false
                                    end) files
            then FINISHED else CANCELLED))).
Proof.
  repeat apply conj.
  - intros openvdb e. unfold execute_with.
    destruct openvdb; [|done]. cbn [negb].
    destruct (negb (bool_decide (files = []))).
    + pose proof (import_files_never_raises load directory files false) as Hnr.
      destruct (import_files load directory files false) as [[reports evs] [b|e'|]];
        simpl in *; try done. by destruct (Hnr e').
    + by destruct (load filepath) as [evs [u|e'|]].
  - done.
  - intros Hne Hall. unfold execute_with. cbn [negb].
    rewrite (bool_decide_false _ Hne). cbn [negb].
    by rewrite (import_files_returns load directory files false Hall).
Qed.

(** A selection of a malformed file and a good one, read by [load_cube]. *)
Lemma execute_selection_witness :
  ∃ grids,
    execute (RT := SpecRuntime)
      (Examples.dir [("bad.cub", "x"); ("a.cub", Examples.density_2x2x2)])
      true "" "/d" ["bad.cub"; "a.cub"] (Examples.fl "1") "MO_INDICES" false
    = ([FailedFile "bad.cub" (RuntimeError "No grids loaded.")],
       [VdbWrite "/d/a.vdb" grids], Ok FINISHED).
Proof.
  set (fs := Examples.dir [("bad.cub", "x"); ("a.cub", Examples.density_2x2x2)]).
  set (load := fun p => load_cube (RT := SpecRuntime) fs p (Examples.fl "1")
                          "MO_INDICES" false).
  destruct (execute_selection load "" "/d" ["bad.cub"; "a.cub"]) as (_ & _ & Hsel).
  unfold execute. fold load. rewrite Hsel.
  - destruct (load "/d/a.cub") as [evs out] eqn:Ha. vm_compute in Ha.
    injection Ha as <- <-.
    eexists. cbn [omap list_omap fmap list_fmap concat existsb].
    change (join "/d" "bad.cub") with "/d/bad.cub".
    change (join "/d" "a.cub") with "/d/a.cub".
    destruct (load "/d/bad.cub") as [evs' out'] eqn:Hb. vm_compute in Hb.
    injection Hb as <- <-.
    destruct (load "/d/a.cub") as [evs out] eqn:Ha. vm_compute in Ha.
    injection Ha as <- <-. reflexivity.
  - discriminate.
  - repeat constructor; vm_compute; discriminate.
Defined.



(** X17. One file whose reading never returns keeps the whole batch from
    returning: the loop over the plan fails to return exactly when some file
    of the plan does, and then [load_cube] calls the writer for no file,
    not even for those read before. *)
Theorem batch_hangs_iff `{RT : Runtime} (fs : filesystem)
    (plan : list (string * option string)) (out : string) (scale : float)
    (mode : string) :
  (read_all fs plan scale mode = Diverge ↔
   Exists (fun e => read_vdb_grids fs e.1 scale mode e.2 = Diverge) plan)
  ∧ (Exists (fun e => read_vdb_grids fs e.1 scale mode e.2 = Diverge) plan →
     write_batch fs plan out scale mode = ([], Diverge)).
Proof.
  assert (Hiff : read_all fs plan scale mode = Diverge ↔
                 Exists (fun e => read_vdb_grids fs e.1 scale mode e.2 = Diverge) plan).
  { induction plan as [|[path name] plan IH]; cbn [read_all].
    - split; [done|]. intros H. by apply Exists_nil in H.
    - rewrite Exists_cons. cbn [fst snd].
      destruct (read_vdb_grids fs path scale mode name) as [grids|e|] eqn:Hr.
      + split.
        * intros H. apply bind_Diverge in H as [H|(more & _ & H)]; [|done].
          right. by apply IH.
        * intros [H|H]; [done|]. apply IH in H. by rewrite H.
      + rewrite IH. split; [by right|]. by intros [H|H].
      + split; [by left|done]. }
  split; [done|].
  intros H. apply Hiff in H. unfold write_batch. by rewrite H.
Qed.

(** A good file followed by the file [missing_indices]. *)
Lemma batch_hangs_iff_witness :
  write_batch (RT := SpecRuntime)
    (Examples.dir [("a1.cub", Examples.density_2x2x2); ("a2.cub", Examples.missing_indices)])
    [("/d/a1.cub", Some "1"); ("/d/a2.cub", Some "2")] "/d/a_all.vdb"
    (Examples.fl "1") "MO_INDICES"
  = ([], Diverge).
Proof.
  apply (batch_hangs_iff (RT := SpecRuntime)).
  apply Exists_cons. right. apply Exists_cons. left.
  vm_compute. reflexivity.
Defined.

(** X18. A field count that cannot be read as an integer is taken to be one:
    the first of the indices that follow it on the line, if there is one, is
    kept as the only index, and the next lines belong to the payload. *)
Theorem unreadable_field_count (l : string) (f : stream) (tok : string)
    (rest : list string) (idx : list Z) :
  split l = tok :: rest →
  py_int tok = None →
  map_outcome int_token rest = Ok idx →
  mo_header (l :: f) = Ok (1, take 1 idx, f).
Proof.
  intros Hsplit Htok Hidx. unfold mo_header. cbn [readline].
  rewrite Hsplit. cbn [lookup list_lookup of_option bind]. rewrite Htok.
  cbn [default length drop].
  destruct rest as [|r rest].
  - cbn in Hidx. injection Hidx as <-. reflexivity.
  - change (drop 0 (r :: rest)) with (r :: rest).
    replace ((1 <? S (length (r :: rest)))%nat) with true
      by (symmetry; apply Nat.ltb_lt; simpl; lia).
    rewrite Hidx. cbn [bind].
    destruct idx as [|i idx].
    + cbn [map_outcome] in Hidx. inv_bind Hidx. inv_bind Hidx. discriminate.
    + reflexivity.
Qed.

(** The line [MO 5 7]. *)
Lemma unreadable_field_count_witness :
  mo_header ["MO 5 7"; "1.0 2.0"] = Ok (1, [5], ["1.0 2.0"]).
Proof.
  apply (unreadable_field_count "MO 5 7" ["1.0 2.0"] "MO" ["5"; "7"] [5; 7]);
    reflexivity.
Defined.

(** X19. A field count of zero is refused when the grid has voxels: the
    payload is cut to nothing and cannot be reshaped, which raises
    [ValueError]. *)
Theorem zero_field_count `{RT : Runtime} (content : string) (c1 c2 c3 : Z) :
  0 < c1 → 0 < c2 → 0 < c3 →
  decode_payload content c1 c2 c3 0 = Raise ValueError.
Proof.
  intros H1 H2 H3. unfold decode_payload.
  replace (c1 * c2 * c3 * 0) with 0 by lia.
  assert (Hnone : reconcile (np_fromstring content) 0 = []).
  { rewrite reconcile_spec by done. by destruct (np_fromstring content). }
  rewrite Hnone.
  unfold reshape_payload, np_reshape. cbn [Z.ltb Z.compare List.filter].
  destruct (Z.ltb_spec c1 0); [lia|].
  destruct (Z.ltb_spec c2 0); [lia|].
  destruct (Z.ltb_spec c3 0); [lia|].
  destruct (Z.leb_spec 0 c1); [|lia].
  destruct (Z.leb_spec 0 c2); [|lia].
  destruct (Z.leb_spec 0 c3); [|lia].
  cbn [length Z.of_nat product foldr].
  destruct (Z.eqb_spec (Z.of_nat 0) (c1 * (c2 * (c3 * 1)))); [nia|done].
Qed.

(** Two by two by two voxels, no field. *)
Lemma zero_field_count_witness :
  decode_payload (RT := SpecRuntime) "1 2 3" 2 2 2 0 = Raise ValueError.
Proof. apply (zero_field_count (RT := SpecRuntime)); lia. Defined.

(** X20. The output file always has the extension ".vdb": the writer is never
    called under a name that does not end in it, by [load_cube] or by the
    add-on. *)
Theorem output_has_vdb_extension `{RT : Runtime} (fs : filesystem)
    (filepath : string) (scale : float) (mode : string) (import_sequence : bool)
    (name : string) (grids : list (grid float32 transform)) :
  VdbWrite name grids ∈ (load_cube fs filepath scale mode import_sequence).1
  ∨ VdbWrite name grids ∈ (Addon.load_cube fs filepath scale mode).1 →
  ∃ stem, name = stem +:+ ".vdb".
Proof.
  assert (Hjoin : ∀ a b, ∃ stem, join a (b +:+ "all.vdb") = stem +:+ ".vdb").
  { intros a b. unfold join.
    destruct (starts_with_sep _).
    - exists (b +:+ "all"). by rewrite string_app_assoc.
    - destruct (_ || _).
      + exists (a +:+ b +:+ "all"). by rewrite !string_app_assoc.
      + exists (a +:+ "/" +:+ b +:+ "all"). by rewrite !string_app_assoc. }
  intros [Hin|Hin].
  - unfold load_cube in Hin.
    destruct (sequence_plan fs filepath import_sequence) as [[plan out]| |] eqn:Hplan;
      cbn [fst] in Hin; [|by apply elem_of_nil in Hin..].
    unfold write_batch in Hin.
    destruct (read_all fs plan scale mode) as [all_grids| |];
      cbn [fst] in Hin; [|by apply elem_of_nil in Hin..].
    destruct (bool_decide (all_grids = [])); cbn [fst] in Hin;
      [by apply elem_of_nil in Hin|].
    apply list_elem_of_singleton in Hin. injection Hin as -> _.
    unfold sequence_plan in Hplan.
    destruct import_sequence; [|injection Hplan as _ <-; eauto].
    destruct (re_search (basename filepath)) as [[[prefix digits] suffix]|];
      [|injection Hplan as _ <-; eauto].
    inv_bind Hplan. inv_bind Hplan.
    destruct (negb _) in Hplan; injection Hplan as _ <-; apply Hjoin.
  - unfold Addon.load_cube in Hin.
    match type of Hin with context [match ?r with _ => _ end] => destruct r end;
      cbn [fst] in Hin; [|by apply elem_of_nil in Hin..].
    apply list_elem_of_singleton in Hin. injection Hin as -> _. eauto.
Qed.

(** The single file [/d/a.cub]. *)
Lemma output_has_vdb_extension_witness :
  ∃ stem, "/d/a.vdb" = stem +:+ ".vdb".
Proof.
  set (fs := Examples.dir [("a.cub", Examples.density_2x2x2)]).
  destruct (load_cube (RT := SpecRuntime) fs "/d/a.cub" (Examples.fl "1") "MO_INDICES" false)
    as [evs out] eqn:Hload.
  pose proof Hload as Hcopy. vm_compute in Hcopy. injection Hcopy as <- _.
  match type of Hload with
  | _ = ([VdbWrite _ ?g], _) =>
      apply (output_has_vdb_extension (RT := SpecRuntime) fs "/d/a.cub"
               (Examples.fl "1") "MO_INDICES" false "/d/a.vdb" g)
  end.
  left. rewrite Hload. by left.
Defined.
